(** * Authentication core of the DIALS backend

    Shallow embedding of
    [backend/mlplayground/utils/rest_framework_cern_sso/authentication.py]:
    the module-level Keycloak clients, the client-secret authenticator and
    the two bearer authenticators, together with the fragment of Python
    (dict lookup, [str.split], exceptions, [try]/[except]) they run on. *)

From Equations.Prop Require Import Equations.
From stdpp Require Import base option list strings pretty gmap.
From Stdlib Require Import Ascii ZArith Lia.

Local Open Scope string_scope.

(** ** Python values, exceptions and results *)

(** The values a header mapping or an instance attribute can hold.  Header
    values of a real request are [str]; [None] and [int] stand for the objects
    without a [split] attribute that the [except AttributeError] clause of
    [get_access_token] is written for. *)
Inductive PyObj : Type :=
| PyNone
| PyStr (s : string)
| PyInt (z : Z).

Global Instance PyObj_eq_dec : EqDecision PyObj.
Proof. solve_decision. Defined.

(** A raised exception: its class and the positional arguments it was
    constructed with. *)
Record exn : Type := Exn { exn_class : string; exn_args : list string }.

Global Instance exn_eq_dec : EqDecision exn.
Proof. solve_decision. Defined.

Definition AuthenticationFailed (args : list string) : exn := Exn "AuthenticationFailed" args.
Definition ValueError (args : list string) : exn := Exn "ValueError" args.
Definition KeyError (args : list string) : exn := Exn "KeyError" args.
Definition AttributeError (args : list string) : exn := Exn "AttributeError" args.
Definition IndexError (args : list string) : exn := Exn "IndexError" args.

(** Modelled from the spec: the [{code, detail}] pair of a classified failure
    ([exceptions.py] is not part of the sources).  Every two-argument raise
    site of the module passes [detail] first and [code] second; an exception
    built from any other number of arguments was given no code. *)
Definition failure_code (e : exn) : option string :=
  match exn_args e with
  | [_; code] => Some code
  | _ => None
  end.

(** A classified authentication failure with the given reason. *)
Definition classified (reason : string) (e : exn) : Prop :=
  exn_class e = "AuthenticationFailed" ∧ failure_code e = Some reason.

Inductive result (A : Type) : Type :=
| Return (a : A)
| Raise (e : exn).
Arguments Return {A} a.
Arguments Raise {A} e.

Definition result_bind {A B} (r : result A) (k : A → result B) : result B :=
  match r with
  | Return a => k a
  | Raise e => Raise e
  end.

(** [try: r except cls: handler] *)
Definition try_except {A} (r : result A) (cls : string) (handler : result A) : result A :=
  match r with
  | Return a => Return a
  | Raise e => if decide (exn_class e = cls) then handler else Raise e
  end.

(** ** [str.split] *)

(** [strip_prefix sep s] is [Some rest] when [s = sep + rest]. *)
Fixpoint strip_prefix (sep s : string) : option string :=
  match sep with
  | EmptyString => Some s
  | String a sep' =>
      match s with
      | EmptyString => None
      | String b s' => if decide (a = b) then strip_prefix sep' s' else None
      end
  end.

(** [str.partition] restricted to its success case: the text before and the
    text after the leftmost occurrence of [sep], [None] when there is none. *)
Fixpoint str_partition (sep s : string) : option (string * string) :=
  match strip_prefix sep s with
  | Some rest => Some (EmptyString, rest)
  | None =>
      match s with
      | EmptyString => None
      | String c s' =>
          match str_partition sep s' with
          | Some (before, after) => Some (String c before, after)
          | None => None
          end
      end
  end.

(** Keeps the equation [x = y] available while matching on the value [y]. *)
Definition inspect {A : Type} (x : A) : {y : A | x = y} := exist _ x eq_refl.

(** The pieces of [s.split(sep)] for a non-empty separator [sep = c + sep']:
    cut at the leftmost occurrence, continue behind it. *)
Equations split_pieces (c : ascii) (sep' : string) (s : string) : list string
  by wf (String.length s) lt :=
  split_pieces c sep' s with inspect (str_partition (String c sep') s) := {
    | exist _ None Hp => [s]
    | exist _ (Some (before, after)) Hp => before :: split_pieces c sep' after }.
Next Obligation.
  intros c sep' s before after Hp _.
  assert (Hstrip : ∀ sep t r, strip_prefix sep t = Some r →
                     String.length t = String.length sep + String.length r).
  { induction sep as [|a sep IH]; intros t r; simpl; [congruence|].
    destruct t as [|b t]; [discriminate|]. case_decide; [|discriminate].
    intros Hr%IH. simpl. lia. }
  revert before Hp. induction s as [|x s IH]; intros before; simpl.
  - discriminate.
  - case_decide.
    + destruct (strip_prefix sep' s) as [rest|] eqn:Hrest.
      * intros [= <- <-]. apply Hstrip in Hrest. lia.
      * destruct (str_partition (String c sep') s) as [[b a]|] eqn:Hs; [|discriminate].
        intros [= <- <-]. specialize (IH b eq_refl). lia.
    + destruct (str_partition (String c sep') s) as [[b a]|] eqn:Hs; [|discriminate].
      intros [= <- <-]. specialize (IH b eq_refl). lia.
Qed.

(** [s.split(sep)]; an empty separator is a [ValueError]. *)
Definition str_split (s sep : string) : result (list string) :=
  match sep with
  | EmptyString => Raise (ValueError ["empty separator"])
  | String c sep' => Return (split_pieces c sep' s)
  end.

(** [bearer.split(sep)] on an arbitrary object: only [str] has the method. *)
Definition py_split (bearer : PyObj) (sep : string) : result (list string) :=
  match bearer with
  | PyStr s => str_split s sep
  | PyNone => Raise (AttributeError ["'NoneType' object has no attribute 'split'"])
  | PyInt _ => Raise (AttributeError ["'int' object has no attribute 'split'"])
  end.

(** [l[-1]] *)
Definition list_last_item (l : list string) : result string :=
  match last l with
  | Some x => Return x
  | None => Raise (IndexError ["list index out of range"])
  end.

(** ** Dictionaries *)

(** [d.get(k)]: [None] when the key is absent. *)
Definition dict_get (d : gmap string PyObj) (k : string) : PyObj :=
  default PyNone (d !! k).

(** [d[k]]: [KeyError] when the key is absent. *)
Definition dict_getitem {V : Type} (d : gmap string V) (k : string) : result V :=
  match d !! k with
  | Some v => Return v
  | None => Raise (KeyError [k])
  end.

(** [k in d] for a dictionary whose keys are all [str]: an object of another
    type equals none of them. *)
Definition dict_contains {V : Type} (d : gmap string V) (k : PyObj) : bool :=
  match k with
  | PyStr s => bool_decide (is_Some (d !! s))
  | _ => false
  end.

(** [d[k]] for an arbitrary key object. *)
Definition dict_getitem_obj {V : Type} (d : gmap string V) (k : PyObj) : result V :=
  match k with
  | PyStr s => dict_getitem d s
  | PyNone => Raise (KeyError ["None"])
  | PyInt _ => Raise (KeyError ["int"])
  end.

(** ** Settings and the module-level clients *)

(** The [KEYCLOAK_*] entries of [dials/settings.py]. *)
Record Settings : Type := {
  KEYCLOAK_SERVER_URL : string;
  KEYCLOAK_REALM : string;
  KEYCLOAK_CONFIDENTIAL_CLIENT_ID : string;
  KEYCLOAK_CONFIDENTIAL_SECRET_KEY : string;
  KEYCLOAK_PUBLIC_CLIENT_ID : string;
  KEYCLOAK_API_CLIENTS : gmap string string;
}.

(** A [CERNKeycloakOIDC] object holds what its constructor was called with;
    [client_secret_key] is optional (the public client has none). *)
Record CERNKeycloakOIDC : Type := {
  server_url : string;
  client_id : string;
  client_secret_key : option string;
  realm_name : string;
}.

Global Instance CERNKeycloakOIDC_eq_dec : EqDecision CERNKeycloakOIDC.
Proof. solve_decision. Defined.

(** The names bound at module level when [authentication.py] is imported,
    and the settings object it keeps reading. *)
Record Globals : Type := {
  settings : Settings;
  public_kc : CERNKeycloakOIDC;
  confidential_kc : CERNKeycloakOIDC;
  api_clients_kc : gmap string CERNKeycloakOIDC;
}.

(** Lines 17-38: the three module-level assignments. *)
Definition import_module (cfg : Settings) : Globals :=
  {| settings := cfg;
     public_kc :=
       {| server_url := KEYCLOAK_SERVER_URL cfg;
          client_id := KEYCLOAK_PUBLIC_CLIENT_ID cfg;
          client_secret_key := None;
          realm_name := KEYCLOAK_REALM cfg |};
     confidential_kc :=
       {| server_url := KEYCLOAK_SERVER_URL cfg;
          client_id := KEYCLOAK_CONFIDENTIAL_CLIENT_ID cfg;
          client_secret_key := Some (KEYCLOAK_CONFIDENTIAL_SECRET_KEY cfg);
          realm_name := KEYCLOAK_REALM cfg |};
     api_clients_kc :=
       map_imap (λ secret_key cid,
                   Some {| server_url := KEYCLOAK_SERVER_URL cfg;
                           client_id := cid;
                           client_secret_key := Some secret_key;
                           realm_name := KEYCLOAK_REALM cfg |})
                (KEYCLOAK_API_CLIENTS cfg) |}.

(** ** Tokens *)

(** Modelled from the spec: the decoded claims of an access token ([token.py]
    and [user.py], which read them, are not part of the sources): subject,
    username, roles, audience and authorized party. *)
Record Claims : Type := {
  claim_sub : string;
  claim_username : string;
  claim_roles : list string;
  claim_aud : list string;
  claim_azp : string;
}.

Global Instance Claims_eq_dec : EqDecision Claims.
Proof. solve_decision. Defined.

(** A [CERNKeycloakToken] object: the two constructor arguments and the three
    attributes [authentication.py] reads or assigns.  [claims] is [None]
    until something populates it. *)
Record CERNKeycloakToken : Type := {
  access_token : string;
  token_kc : CERNKeycloakOIDC;
  unv_claims : Claims;
  claims : option Claims;
  is_authenticated : bool;
}.

Global Instance CERNKeycloakToken_eq_dec : EqDecision CERNKeycloakToken.
Proof. solve_decision. Defined.

(** [token.is_authenticated = b] *)
Definition set_is_authenticated (b : bool) (token : CERNKeycloakToken) : CERNKeycloakToken :=
  {| access_token := access_token token; token_kc := token_kc token;
     unv_claims := unv_claims token; claims := claims token;
     is_authenticated := b |}.

(** [token.claims = c] *)
Definition set_claims (c : Claims) (token : CERNKeycloakToken) : CERNKeycloakToken :=
  {| access_token := access_token token; token_kc := token_kc token;
     unv_claims := unv_claims token; claims := Some c;
     is_authenticated := is_authenticated token |}.

(** Lines 83-84: the patch the secret authenticator applies to the token it
    has just had minted. *)
Definition patch_trusted (token : CERNKeycloakToken) : CERNKeycloakToken :=
  let token := set_is_authenticated true token in
  set_claims (unv_claims token) token.

(** A request, as far as the authenticators look at it: [request.headers],
    which the methods that read it type as [dict]. *)
Record Request : Type := { headers : gmap string PyObj }.

(** ** Collaborators

    The classes imported from [.backends], [.token] and [.user] are not part
    of the sources.  The authenticators are written against this interface:
    each method is a function of the outside world (identity provider, key
    cache, clock) that returns normally or raises.  A method that mutates its
    receiver returns the receiver's new state. *)
Class Collaborators : Type := {
  World : Type;
  User : Type;
  (** [kc.issue_api_token()] *)
  issue_api_token : CERNKeycloakOIDC → World → result (gmap string string) * World;
  (** [CERNKeycloakToken(access_token, kc)] *)
  new_CERNKeycloakToken : string → CERNKeycloakOIDC → World → result CERNKeycloakToken * World;
  (** [token.validate(valid_aud, valid_azp)] *)
  validate : CERNKeycloakToken → list string → list string → World → result CERNKeycloakToken * World;
  (** [CERNKeycloakUser(token)] *)
  new_CERNKeycloakUser : CERNKeycloakToken → World → result User * World;
}.

Section Authentication.
Context {C : Collaborators}.

(** One entry per completed call into a collaborator, with its outcome. *)
Inductive Event : Type :=
| Call_issue_api_token (kc : CERNKeycloakOIDC) (r : result (gmap string string))
| Call_CERNKeycloakToken (raw : string) (kc : CERNKeycloakOIDC) (r : result CERNKeycloakToken)
| Call_validate (token : CERNKeycloakToken) (valid_aud valid_azp : list string)
    (r : result CERNKeycloakToken)
| Call_CERNKeycloakUser (token : CERNKeycloakToken) (r : result User).

(** The state an authentication pass runs in: the module globals, the outside
    world and the calls made so far. *)
Record State : Type := {
  globals : Globals;
  world : World;
  trace : list Event;
}.

Definition M (A : Type) : Type := State → result A * State.

Definition ret {A} (a : A) : M A := λ st, (Return a, st).
Definition raise {A} (e : exn) : M A := λ st, (Raise e, st).
Definition lift {A} (r : result A) : M A := λ st, (r, st).
Definition bind {A B} (m : M A) (k : A → M B) : M B :=
  λ st, match m st with
        | (Return a, st') => k a st'
        | (Raise e, st') => (Raise e, st')
        end.
Global Instance M_ret : MRet M := @ret.
Global Instance M_bind : MBind M := λ A B k m, bind m k.
Definition get_globals : M Globals := λ st, (Return (globals st), st).

(** Assignment to the module-level names (or to an entry of the registry).
    The monad has it as Python has it; no method of the module contains
    one. *)
Definition put_globals (g : Globals) : M unit :=
  λ st, (Return tt, {| globals := g; world := world st; trace := trace st |}).

Definition call {A} (f : World → result A * World) (ev : result A → Event) : M A :=
  λ st, let '(r, w) := f (world st) in
        (r, {| globals := globals st; world := w; trace := trace st ++ [ev r] |}).

Definition call_issue_api_token (kc : CERNKeycloakOIDC) : M (gmap string string) :=
  call (issue_api_token kc) (Call_issue_api_token kc).
Definition call_CERNKeycloakToken (raw : string) (kc : CERNKeycloakOIDC) : M CERNKeycloakToken :=
  call (new_CERNKeycloakToken raw kc) (Call_CERNKeycloakToken raw kc).
Definition call_validate (token : CERNKeycloakToken) (valid_aud valid_azp : list string)
  : M CERNKeycloakToken :=
  call (validate token valid_aud valid_azp) (Call_validate token valid_aud valid_azp).
Definition call_CERNKeycloakUser (token : CERNKeycloakToken) : M User :=
  call (new_CERNKeycloakUser token) (Call_CERNKeycloakUser token).

End Authentication.


(** ** The authenticators *)

Module CERNKeycloakClientSecretAuthentication.
Section Methods.
Context {C : Collaborators}.

Definition HEADER_KEY : string := "X-CLIENT-SECRET".

(** Lines 88-89 *)
Definition get_secret_key (headers : gmap string PyObj) : PyObj :=
  dict_get headers HEADER_KEY.

(** Lines 62-86.  The two adjacent string literals of lines 73-74 are one
    argument: Python concatenates them. *)
Definition authenticate (request : Request) : M (option (User * CERNKeycloakToken)) :=
  let secret_key := get_secret_key (headers request) in
  match secret_key with
  | PyNone => ret None
  | _ =>
      g ← get_globals;
      if negb (dict_contains (api_clients_kc g) secret_key) then
        raise (AuthenticationFailed
                 ["App secret is not authorized." +:+ "app_secret_not_authorized"])
      else
        kc ← lift (dict_getitem_obj (api_clients_kc g) secret_key);
        issued_token ← call_issue_api_token kc;
        raw ← lift (dict_getitem issued_token "access_token");
        token ← call_CERNKeycloakToken raw kc;
        let token := set_is_authenticated true token in
        let token := set_claims (unv_claims token) token in
        user ← call_CERNKeycloakUser token;
        ret (Some (user, token))
  end.

End Methods.
End CERNKeycloakClientSecretAuthentication.

Module CERNKeycloakBearerAuthentication.
Section Methods.
Context {C : Collaborators}.

Definition HEADER_KEY : string := "Authorization".

(** An instance: its [expected_bearer_token_type] attribute, [None] while
    nothing has assigned it (the base class has no constructor of its own). *)
Record self_t : Type := { expected_bearer_token_type : option PyObj }.

(** [self.expected_bearer_token_type] *)
Definition getattr_expected_bearer_token_type (self : self_t) : result PyObj :=
  match expected_bearer_token_type self with
  | Some v => Return v
  | None =>
      Raise (AttributeError ["object has no attribute 'expected_bearer_token_type'"])
  end.

(** Lines 120-132 *)
Definition get_kc_by_expected_token (self : self_t)
  : M (CERNKeycloakOIDC * list string * list string) :=
  t ← lift (getattr_expected_bearer_token_type self);
  g ← get_globals;
  if decide (t = PyStr "public") then
    let valid_aud := [KEYCLOAK_PUBLIC_CLIENT_ID (settings g)] in
    let valid_azp := [KEYCLOAK_PUBLIC_CLIENT_ID (settings g)] in
    let kc := public_kc g in
    ret (kc, valid_aud, valid_azp)
  else if decide (t = PyStr "confidential") then
    let valid_aud := [KEYCLOAK_CONFIDENTIAL_CLIENT_ID (settings g)] in
    let valid_azp := [KEYCLOAK_CONFIDENTIAL_CLIENT_ID (settings g);
                      KEYCLOAK_PUBLIC_CLIENT_ID (settings g)] in
    let kc := confidential_kc g in
    ret (kc, valid_aud, valid_azp)
  else
    raise (ValueError ["expected_bearer_token_type should only be public or confidential."]).

(** Lines 134-149 *)
Definition get_access_token (headers : gmap string PyObj) : result string :=
  result_bind
    (try_except (dict_getitem headers HEADER_KEY) "KeyError"
       (Raise (AuthenticationFailed
                 ["Authorization header not found."; "authorization_not_found"])))
    (λ bearer,
       try_except (result_bind (py_split bearer "Bearer ") list_last_item)
         "AttributeError"
         (Raise (AuthenticationFailed ["Malformed access token."; "bad_access_token"]))).

(** Lines 113-118 *)
Definition authenticate (self : self_t) (request : Request)
  : M (option (User * CERNKeycloakToken)) :=
  raw ← lift (get_access_token (headers request));
  '(kc, valid_aud, valid_azp) ← get_kc_by_expected_token self;
  token ← call_CERNKeycloakToken raw kc;
  token ← call_validate token valid_aud valid_azp;
  user ← call_CERNKeycloakUser token;
  ret (Some (user, token)).

End Methods.
End CERNKeycloakBearerAuthentication.

(** Lines 152-160: the constructor assigns the attribute. *)
Definition CERNKeycloakPublicAuthentication : CERNKeycloakBearerAuthentication.self_t :=
  {| CERNKeycloakBearerAuthentication.expected_bearer_token_type := Some (PyStr "public") |}.

(** Lines 163-172 *)
Definition CERNKeycloakConfidentialAuthentication : CERNKeycloakBearerAuthentication.self_t :=
  {| CERNKeycloakBearerAuthentication.expected_bearer_token_type := Some (PyStr "confidential") |}.

(** ** The authenticator chain

    The framework holds instances of the three classes behind the one
    [authenticate(request)] method and calls them request after request. *)
Inductive Authenticator : Type :=
| ClientSecret
| Bearer (self : CERNKeycloakBearerAuthentication.self_t).

Section Chain.
Context {C : Collaborators}.

Definition authenticate (a : Authenticator) (request : Request)
  : M (option (User * CERNKeycloakToken)) :=
  match a with
  | ClientSecret => CERNKeycloakClientSecretAuthentication.authenticate request
  | Bearer self => CERNKeycloakBearerAuthentication.authenticate self request
  end.

(** Successive authentication passes of one process.  A raised failure ends
    its own pass only: the framework turns it into a response. *)
Fixpoint authentication_passes (passes : list (Authenticator * Request)) (st : State)
  : list (result (option (User * CERNKeycloakToken))) * State :=
  match passes with
  | [] => ([], st)
  | (a, request) :: rest =>
      let '(outcome, st') := authenticate a request st in
      let '(outcomes, st'') := authentication_passes rest st' in
      (outcome :: outcomes, st'')
  end.

(** The state a process starts in. *)
Definition startup (cfg : Settings) (w : World) : State :=
  {| globals := import_module cfg; world := w; trace := [] |}.

(** The calls made between two states of one run. *)
Definition new_events (st st' : State) : list Event :=
  drop (length (trace st)) (trace st').

Definition is_validate_call (ev : Event) : bool :=
  match ev with
  | Call_validate _ _ _ _ => true
  | _ => false
  end.

(** The [(valid_aud, valid_azp)] pairs handed to [validate]. *)
Definition validate_arguments (evs : list Event) : list (list string * list string) :=
  omap (λ ev, match ev with
              | Call_validate _ valid_aud valid_azp _ => Some (valid_aud, valid_azp)
              | _ => None
              end) evs.

(** The tokens handed to the [CERNKeycloakUser] constructor. *)
Definition user_tokens (evs : list Event) : list CERNKeycloakToken :=
  omap (λ ev, match ev with
              | Call_CERNKeycloakUser token _ => Some token
              | _ => None
              end) evs.

(** Every token object state that came into being during the calls [evs]:
    what the token constructor returned, what [validate] left behind on
    success, and what was handed to the user constructor. *)
Definition produced_tokens (evs : list Event) : list CERNKeycloakToken :=
  evs ≫= λ ev,
    match ev with
    | Call_CERNKeycloakToken _ _ (Return token) => [token]
    | Call_validate _ _ _ (Return token) => [token]
    | Call_CERNKeycloakUser token _ => [token]
    | _ => []
    end.

(** The validation states of the spec, read off the calls of a pass.
    [Validated]: a [validate] call returned normally and left the token in
    this state.  [PreTrusted]: the token was built from what
    [issue_api_token] has just returned and patched by lines 83-84. *)
Definition Validated (evs : list Event) (token : CERNKeycloakToken) : Prop :=
  ∃ token0 valid_aud valid_azp,
    Call_validate token0 valid_aud valid_azp (Return token) ∈ evs.

Definition PreTrusted (evs : list Event) (token : CERNKeycloakToken) : Prop :=
  ∃ kc issued_token raw token0,
    Call_issue_api_token kc (Return issued_token) ∈ evs ∧
    issued_token !! "access_token" = Some raw ∧
    Call_CERNKeycloakToken raw kc (Return token0) ∈ evs ∧
    token = patch_trusted token0.

Definition claims_populated (token : CERNKeycloakToken) : Prop :=
  is_Some (claims token).

(** A computation that leaves the module globals as it found them. *)
Definition keeps_globals {A} (m : M A) : Prop :=
  ∀ st, globals (snd (m st)) = globals st.

End Chain.

(** ** Occurrences of a separator *)

(** [sep in s] *)
Fixpoint str_contains (sep s : string) : bool :=
  match strip_prefix sep s with
  | Some _ => true
  | None =>
      match s with
      | EmptyString => false
      | String _ s' => str_contains sep s'
      end
  end.

Definition occurs_in (sep s : string) : Prop :=
  ∃ pre post, s = pre +:+ sep +:+ post.

(** "The substring after the last occurrence of [sep]": [post] follows an
    occurrence of [sep] in [s], and no occurrence of [sep] in [s] starts
    further right. *)
Definition after_last_occurrence (sep s post : string) : Prop :=
  ∃ pre, s = pre +:+ sep +:+ post ∧
         ∀ pre' post', s = pre' +:+ sep +:+ post' → (String.length pre' ≤ String.length pre)%nat.

(** ** The absent collaborators, after the spec *)

(** The identity provider as the spec's OIDCClient sees it: a token endpoint
    for the client-credentials grant, signature and expiry verification of a
    raw token, and the unverified decoding of a token's payload. *)
Record IdentityProvider : Type := {
  idp_world : Type;
  idp_token_endpoint : CERNKeycloakOIDC → idp_world → result string * idp_world;
  idp_verify : CERNKeycloakOIDC → string → idp_world → result Claims * idp_world;
  idp_decode_unverified : string → result Claims;
}.

(** Modelled from the spec: the Principal ([user.py] is not part of the
    sources): subject, username and roles of the token's verified claims and
    a back-reference to the token. *)
Record Principal : Type := {
  principal_sub : string;
  principal_username : string;
  principal_roles : list string;
  principal_token : CERNKeycloakToken;
}.

Section SpecModel.
Variable idp : IdentityProvider.

(** Modelled from the spec: [OIDCClient.issue_token] ([backends.py] is not
    part of the sources): a client-credentials exchange whose response
    carries the raw token under ["access_token"]. *)
Definition spec_issue_api_token (kc : CERNKeycloakOIDC) (w : idp_world idp)
  : result (gmap string string) * idp_world idp :=
  match idp_token_endpoint idp kc w with
  | (Return raw, w') => (Return {[ "access_token" := raw ]}, w')
  | (Raise e, w') => (Raise e, w')
  end.

(** Modelled from the spec: the Token constructor ([token.py] is not part of
    the sources): a new token is Unvalidated, carries its unverified claims
    and no verified ones. *)
Definition spec_new_token (raw : string) (kc : CERNKeycloakOIDC) (w : idp_world idp)
  : result CERNKeycloakToken * idp_world idp :=
  match idp_decode_unverified idp raw with
  | Return c =>
      (Return {| access_token := raw; token_kc := kc; unv_claims := c;
                 claims := None; is_authenticated := false |}, w)
  | Raise e => (Raise e, w)
  end.

(** Modelled from the spec: the reason a failed [verify] is classified as. *)
Definition rejection_reason (e : exn) : string :=
  if decide (exn_class e = "TokenExpired") then "expired_token"
  else if decide (exn_class e = "TokenNotYetValid") then "token_not_yet_valid"
  else "bad_signature".

(** Modelled from the spec: [Token.validate] ([token.py] is not part of the
    sources).  A second validation fails fast; otherwise the owning client
    verifies the raw token, [aud] must meet the expected audiences and [azp]
    must be an expected authorized party; success populates [claims], any
    failure raises a classified [AuthenticationFailed]. *)
Definition spec_validate (token : CERNKeycloakToken) (valid_aud valid_azp : list string)
    (w : idp_world idp) : result CERNKeycloakToken * idp_world idp :=
  if is_authenticated token || bool_decide (is_Some (claims token)) then
    (Raise (Exn "RuntimeError" ["token validated twice"]), w)
  else
    match idp_verify idp (token_kc token) (access_token token) w with
    | (Raise e, w') =>
        (Raise (AuthenticationFailed ["Token rejected."; rejection_reason e]), w')
    | (Return c, w') =>
        if negb (existsb (λ a, bool_decide (a ∈ valid_aud)) (claim_aud c)) then
          (Raise (AuthenticationFailed ["Invalid audience."; "invalid_audience"]), w')
        else if negb (bool_decide (claim_azp c ∈ valid_azp)) then
          (Raise (AuthenticationFailed ["Invalid authorized party."; "invalid_azp"]), w')
        else
          (Return (set_claims c (set_is_authenticated true token)), w')
    end.

(** Modelled from the spec: the Principal constructor ([user.py] is not part
    of the sources): a view over the token's verified claims. *)
Definition spec_new_user (token : CERNKeycloakToken) (w : idp_world idp)
  : result Principal * idp_world idp :=
  match claims token with
  | Some c =>
      (Return {| principal_sub := claim_sub c; principal_username := claim_username c;
                 principal_roles := claim_roles c; principal_token := token |}, w)
  | None => (Raise (AttributeError ["token has no verified claims"]), w)
  end.

Definition spec_collaborators : Collaborators :=
  {| World := idp_world idp;
     User := Principal;
     issue_api_token := spec_issue_api_token;
     new_CERNKeycloakToken := spec_new_token;
     validate := spec_validate;
     new_CERNKeycloakUser := spec_new_user |}.

End SpecModel.

(** ** A small deployment to evaluate the code on *)

Module Demo.

Definition cfg : Settings :=
  {| KEYCLOAK_SERVER_URL := "https://auth.cern.ch/auth/";
     KEYCLOAK_REALM := "cern";
     KEYCLOAK_CONFIDENTIAL_CLIENT_ID := "dials-confidential";
     KEYCLOAK_CONFIDENTIAL_SECRET_KEY := "conf-secret";
     KEYCLOAK_PUBLIC_CLIENT_ID := "dials-public";
     KEYCLOAK_API_CLIENTS := {[ "S2" := "robot" ]} |}.

Definition claims_for (sub aud azp : string) : Claims :=
  {| claim_sub := sub; claim_username := sub; claim_roles := [];
     claim_aud := [aud]; claim_azp := azp |}.

(** The provider has issued three tokens to users and mints
    ["<client>.<n>"] for the [n]-th client-credentials request. *)
Definition decode (raw : string) : result Claims :=
  if decide (raw = "tok-public") then Return (claims_for "alice" "dials-public" "dials-public")
  else if decide (raw = "tok-confidential") then
    Return (claims_for "alice" "dials-confidential" "dials-confidential")
  else if decide (raw = "tok-exchanged") then
    Return (claims_for "alice" "dials-confidential" "dials-public")
  else if decide (raw = "robot.0") then Return (claims_for "robot" "robot" "robot")
  else Raise (Exn "DecodeError" ["not a token"]).

Definition idp : IdentityProvider :=
  {| idp_world := nat;
     idp_token_endpoint := λ kc n,
       (Return (client_id kc +:+ "." +:+ pretty n), S n);
     idp_verify := λ _ raw n,
       (match decode raw with
        | Return c => Return c
        | Raise _ => Raise (Exn "SignatureInvalid" ["bad signature"])
        end, n);
     idp_decode_unverified := decode |}.

Definition collaborators : Collaborators := spec_collaborators idp.

Definition st0 : @State collaborators := @startup collaborators cfg 0.

Definition request_with (k v : string) : Request := {| headers := {[ k := PyStr v ]} |}.

Definition no_headers : Request := {| headers := ∅ |}.

(** The client registered for the machine secret ["S2"]. *)
Definition robot_kc : CERNKeycloakOIDC :=
  {| server_url := "https://auth.cern.ch/auth/"; client_id := "robot";
     client_secret_key := Some "S2"; realm_name := "cern" |}.

Definition secret_pass (secret : string) :=
  @authenticate collaborators ClientSecret (request_with "X-CLIENT-SECRET" secret) st0.

Definition bearer_pass (self : CERNKeycloakBearerAuthentication.self_t) (header : string) :=
  @authenticate collaborators (Bearer self) (request_with "Authorization" header) st0.

End Demo.

(** ** [dials/settings.py]

    The parts of the settings module that compute: the space-separated host
    lists, the Content-Security-Policy sources derived from them, the
    database section and the Keycloak section.  [decouple]'s [config] is a
    lookup in the configuration it was given; [json.loads] and
    [dj_database_url.config] are parameters. *)

Global Instance result_ret : MRet result := @Return.
Global Instance result_mbind : MBind result := λ A B k r, result_bind r k.

(** [sep.join(l)] *)
Fixpoint str_join (sep : string) (l : list string) : string :=
  match l with
  | [] => EmptyString
  | [x] => x
  | x :: l' => x +:+ sep +:+ str_join sep l'
  end.

(** [s.startswith(p)] *)
Definition str_startswith (s p : string) : bool :=
  match strip_prefix p s with
  | Some _ => true
  | None => false
  end.

(** [s.endswith(p)] *)
Fixpoint str_endswith (s p : string) : bool :=
  bool_decide (s = p) ||
  match s with
  | EmptyString => false
  | String _ s' => str_endswith s' p
  end.

(** [os.path.join(a, b)] of [posixpath], for two components. *)
Definition os_path_join (a b : string) : string :=
  if str_startswith b "/" then b
  else if bool_decide (a = EmptyString) || str_endswith a "/" then a +:+ b
  else a +:+ "/" +:+ b.

(** What a call returned, when it returned. *)
Definition returned {A : Type} (r : result A) : option A :=
  match r with
  | Return a => Some a
  | Raise _ => None
  end.

(** Truth value of an object in a condition. *)
Definition py_truthy (v : PyObj) : bool :=
  match v with
  | PyNone => false
  | PyStr s => negb (bool_decide (s = EmptyString))
  | PyInt z => negb (bool_decide (z = 0%Z))
  end.

Module settings_py.

Definition Exception (args : list string) : exn := Exn "Exception" args.
Definition TypeError (args : list string) : exn := Exn "TypeError" args.
Definition UndefinedValueError (args : list string) : exn := Exn "UndefinedValueError" args.

(** [config(name)]: the configured value, [UndefinedValueError] without one. *)
Definition config (env : gmap string string) (name : string) : result string :=
  match env !! name with
  | Some v => Return v
  | None =>
      Raise (UndefinedValueError
               [name +:+ " not found. Declare it as envvar or define a default value."])
  end.

(** [config(name, default=d)] for a string default. *)
Definition config_default (env : gmap string string) (name d : string) : string :=
  default d (env !! name).

(** [config(name, default=None)] *)
Definition config_default_None (env : gmap string string) (name : string) : PyObj :=
  from_option PyStr PyNone (env !! name).

(** Line 35 *)
Definition ALLOWED_HOSTS (env : gmap string string) : result (list string) :=
  str_split (config_default env "DJANGO_ALLOWED_HOSTS" EmptyString) " ".

(** Line 38 *)
Definition CSRF_TRUSTED_ORIGINS (env : gmap string string) : result (list string) :=
  str_split (config_default env "DJANGO_CSRF_TRUSTED_ORIGINS" EmptyString) " ".

(** Line 47 *)
Definition CORS_ALLOWED_ORIGINS (env : gmap string string) : result (list string) :=
  str_split (config_default env "DJANGO_CORS_ALLOWED_ORIGINS" EmptyString) " ".

(** The element of the comprehensions of lines 190, 193 and 202:
    [f"*{host}" if host.startswith(".") else host]. *)
Definition csp_host (host : string) : string :=
  if str_startswith host "." then "*" +:+ host else host.

(** Lines 185-190 *)
Definition CSP_SCRIPT_SRC (allowed_hosts : list string) : list string :=
  ["'self'"; "'unsafe-inline'"; "'unsafe-eval'";
   "https://unpkg.com/swagger-ui-dist@5.11.0/swagger-ui-bundle.js"]
    ++ (csp_host <$> allowed_hosts).

(** Lines 191-193 *)
Definition CSP_CONNECT_SRC (allowed_hosts : list string) : list string :=
  ["'self'"] ++ (csp_host <$> allowed_hosts).

(** Lines 199-202 *)
Definition CSP_FONT_SRC (allowed_hosts : list string) : list string :=
  ["'self'"; "'unsafe-inline'"] ++ (csp_host <$> allowed_hosts).

Section Sections.
(** [json.loads] on the text of a JSON object with string members, the shape
    [DJANGO_WORKSPACES] and [DJANGO_KEYCLOAK_API_CLIENTS] have. *)
Variable json_loads : string → result (gmap string string).
(** [dj_database_url.config(default=url)]; it raises on a URL it cannot
    parse. *)
Variable Database : Type.
Variable dj_database_url_config : string → result Database.
(** [d.keys()]: the keys of [d] in the order the dictionary holds them, the
    order of the JSON text, which the finite map does not record. *)
Variable dict_keys : gmap string string → list string.

Record DatabaseSettings : Type := {
  WORKSPACES : gmap string string;
  DB_SERVER_URI : string;
  DEFAULT_WORKSPACE : PyObj;
  DATABASES : gmap string Database;
}.

(** The comprehension of line 110: one database configuration per name, in
    the order of the names; the first call that raises ends it. *)
Fixpoint build_databases (db_server_uri : string) (names : list string)
    (databases : gmap string Database) : result (gmap string Database) :=
  match names with
  | [] => Return databases
  | name :: names' =>
      database ← dj_database_url_config (os_path_join db_server_uri name);
      build_databases db_server_uri names' (<[name := database]> databases)
  end.

(** Lines 103-111.  [WORKSPACES.keys()[0]] is a [TypeError]: a keys view
    cannot be subscripted. *)
Definition database_settings (env : gmap string string) : result DatabaseSettings :=
  workspaces ← json_loads (config_default env "DJANGO_WORKSPACES" "{}");
  if bool_decide (size workspaces = 0%nat) then
    Raise (Exception ["Workspaces are empty, cannot start server."])
  else
    db_server_uri ← config env "DJANGO_DATABASE_URI";
    let default_workspace := config_default_None env "DJANGO_DEFAULT_WORKSPACE" in
    default_workspace ←
      (if py_truthy default_workspace then Return default_workspace
       else Raise (TypeError ["'dict_keys' object is not subscriptable"]));
    databases ← build_databases db_server_uri (dict_keys workspaces) ∅;
    default_database ← dict_getitem_obj databases default_workspace;
    Return {| WORKSPACES := workspaces; DB_SERVER_URI := db_server_uri;
              DEFAULT_WORKSPACE := default_workspace;
              DATABASES := <["default" := default_database]> databases |}.

(** Lines 158-163 *)
Definition keycloak_settings (env : gmap string string) : result Settings :=
  url ← config env "DJANGO_KEYCLOAK_SERVER_URL";
  realm ← config env "DJANGO_KEYCLOAK_REALM";
  confidential_id ← config env "DJANGO_KEYCLOAK_CONFIDENTIAL_CLIENT_ID";
  confidential_secret ← config env "DJANGO_KEYCLOAK_CONFIDENTIAL_SECRET_KEY";
  public_id ← config env "DJANGO_KEYCLOAK_PUBLIC_CLIENT_ID";
  api_clients ← json_loads (config_default env "DJANGO_KEYCLOAK_API_CLIENTS" "{}");
  Return {| KEYCLOAK_SERVER_URL := url; KEYCLOAK_REALM := realm;
            KEYCLOAK_CONFIDENTIAL_CLIENT_ID := confidential_id;
            KEYCLOAK_CONFIDENTIAL_SECRET_KEY := confidential_secret;
            KEYCLOAK_PUBLIC_CLIENT_ID := public_id;
            KEYCLOAK_API_CLIENTS := api_clients |}.

End Sections.

Arguments WORKSPACES {Database} _.
Arguments DB_SERVER_URI {Database} _.
Arguments DEFAULT_WORKSPACE {Database} _.
Arguments DATABASES {Database} _.

End settings_py.

(** A configuration to evaluate the settings module on.  [json_loads] knows
    the two documents this configuration uses. *)
Module DemoSettings.

Definition json_loads (text : string) : result (gmap string string) :=
  if decide (text = "{}") then Return ∅
  else if decide (text = "{csc: cms-csc, jetmet: cms-jetmet}") then
    Return {[ "csc" := "cms-csc"; "jetmet" := "cms-jetmet" ]}
  else if decide (text = "{S2: robot}") then Return {[ "S2" := "robot" ]}
  else Raise (Exn "JSONDecodeError" [text]).

(** A database configuration is the URL it was parsed from; only PostgreSQL
    URLs parse. *)
Definition dj_database_url_config (url : string) : result string :=
  if str_startswith url "postgres://" then Return url
  else Raise (Exn "UnknownSchemeError" [url]).

Definition dict_keys (d : gmap string string) : list string := (map_to_list d).*1.

Definition env : gmap string string :=
  {[ "DJANGO_ALLOWED_HOSTS" := ".cern.ch localhost";
     "DJANGO_WORKSPACES" := "{csc: cms-csc, jetmet: cms-jetmet}";
     "DJANGO_DATABASE_URI" := "postgres://db.cern.ch:5432";
     "DJANGO_DEFAULT_WORKSPACE" := "csc";
     "DJANGO_KEYCLOAK_SERVER_URL" := "https://auth.cern.ch/auth/";
     "DJANGO_KEYCLOAK_REALM" := "cern";
     "DJANGO_KEYCLOAK_CONFIDENTIAL_CLIENT_ID" := "dials-confidential";
     "DJANGO_KEYCLOAK_CONFIDENTIAL_SECRET_KEY" := "conf-secret";
     "DJANGO_KEYCLOAK_PUBLIC_CLIENT_ID" := "dials-public" ]}.

End DemoSettings.

(** A provider whose token endpoint answers without an ["access_token"]
    member; tokens and users as in [Demo]. *)
Module DemoSilent.

Definition collaborators : Collaborators :=
  {| World := nat;
     User := Principal;
     issue_api_token := λ _ n, (Return ∅, S n);
     new_CERNKeycloakToken := spec_new_token Demo.idp;
     validate := spec_validate Demo.idp;
     new_CERNKeycloakUser := spec_new_user Demo.idp |}.

Definition st0 : @State collaborators := @startup collaborators Demo.cfg 0.

End DemoSilent.

(** ** The client objects in the heap

    The three names the module binds refer to objects, and a method that is
    handed one of them could assign its attributes.  The heap a process runs
    in holds these objects next to the world outside the process. *)
Record Heap (W : Type) : Type := {
  heap_clients : Globals;
  heap_outside : W;
}.
Arguments heap_clients {W} _.
Arguments heap_outside {W} _.

(** Modelled from the spec: what a method of the client, token or user class
    does to the client objects ([backends.py], [token.py] and [user.py] are
    not part of the sources).  Spec section 3: an OIDCClient owns no mutable
    state of its own and is immutable after construction, shared read-only.
    The method works on the world outside and leaves the client objects of
    the heap as it found them. *)
Definition leaves_clients {W A : Type} (method : W → result A * W) (h : Heap W)
  : result A * Heap W :=
  let '(r, w) := method (heap_outside h) in
  (r, {| heap_clients := heap_clients h; heap_outside := w |}).

(** Modelled from the spec: the collaborators [C] in a process whose heap
    holds the client objects; every method leaves them as they are (spec
    sections 3 and 5: clients are immutable after startup). *)
Definition heap_collaborators (C : Collaborators) : Collaborators :=
  {| World := Heap (@World C);
     User := @User C;
     issue_api_token := λ kc, leaves_clients (@issue_api_token C kc);
     new_CERNKeycloakToken := λ raw kc, leaves_clients (@new_CERNKeycloakToken C raw kc);
     validate := λ token valid_aud valid_azp,
       leaves_clients (@validate C token valid_aud valid_azp);
     new_CERNKeycloakUser := λ token, leaves_clients (@new_CERNKeycloakUser C token) |}.

(** The state a process starts in when the import has just built the client
    objects. *)
Definition heap_startup (C : Collaborators) (cfg : Settings) (w : @World C)
  : @State (heap_collaborators C) :=
  @startup (heap_collaborators C) cfg
    {| heap_clients := import_module cfg; heap_outside := w |}.

(** A computation that leaves the client objects of the heap as it found
    them. *)
Definition keeps_clients {C : Collaborators} {A : Type} (m : @M (heap_collaborators C) A)
  : Prop :=
  ∀ st, heap_clients (world (snd (m st))) = heap_clients (world st).

(** * Properties *)

(** ** Strings *)

Lemma string_app_cons a s t : String a s +:+ t = String a (s +:+ t).
Proof. reflexivity. Qed.

Lemma string_app_nil_l s : EmptyString +:+ s = s.
Proof. reflexivity. Qed.

Lemma string_app_assoc s t u : (s +:+ t) +:+ u = s +:+ t +:+ u.
Proof. induction s as [|a s IH]; [done|]. rewrite !string_app_cons. by f_equal. Qed.

Lemma string_length_app s t :
  String.length (s +:+ t) = (String.length s + String.length t)%nat.
Proof. induction s as [|a s IH]; [done|]. rewrite string_app_cons. simpl. lia. Qed.

(** Two ways of cutting one string: the shorter left part is a prefix of the
    longer one. *)
Lemma string_app_eq_app x1 y1 x2 y2 :
  x1 +:+ y1 = x2 +:+ y2 → (String.length x1 ≤ String.length x2)%nat →
  ∃ l, x2 = x1 +:+ l ∧ y1 = l +:+ y2.
Proof.
  revert x2. induction x1 as [|a x1 IH]; intros x2 Heq Hlen.
  - exists x2. by rewrite string_app_nil_l in *.
  - destruct x2 as [|b x2]; [simpl in Hlen; lia|].
    rewrite !string_app_cons in Heq. injection Heq as -> Heq.
    destruct (IH x2 Heq) as (l & -> & ->); [simpl in Hlen; lia|].
    by exists l.
Qed.

Lemma strip_prefix_app sep s rest :
  strip_prefix sep s = Some rest ↔ s = sep +:+ rest.
Proof.
  revert s. induction sep as [|a sep IH]; intros s; simpl.
  - rewrite string_app_nil_l. split; congruence.
  - rewrite string_app_cons. destruct s as [|b s]; [split; discriminate|].
    case_decide as Hab.
    + subst b. rewrite IH. split; congruence.
    + split; [discriminate | congruence].
Qed.

Lemma strip_prefix_None sep s :
  strip_prefix sep s = None ↔ ∀ rest, s ≠ sep +:+ rest.
Proof.
  split.
  - intros Hn rest Hs. apply strip_prefix_app in Hs. congruence.
  - intros Hn. destruct (strip_prefix sep s) as [rest|] eqn:Hp; [|done].
    apply strip_prefix_app in Hp. by destruct (Hn rest).
Qed.

Lemma str_partition_unfold sep s :
  str_partition sep s =
    match strip_prefix sep s with
    | Some rest => Some (EmptyString, rest)
    | None =>
        match s with
        | EmptyString => None
        | String c s' =>
            match str_partition sep s' with
            | Some (before, after) => Some (String c before, after)
            | None => None
            end
        end
    end.
Proof. by destruct s. Qed.

(** [str_partition] finds an occurrence, and the leftmost one. *)
Lemma str_partition_Some sep s before after :
  str_partition sep s = Some (before, after) →
  s = before +:+ sep +:+ after ∧
  ∀ pre post, s = pre +:+ sep +:+ post → (String.length before ≤ String.length pre)%nat.
Proof.
  revert before. induction s as [|c s IH]; intros before; rewrite str_partition_unfold.
  - destruct (strip_prefix sep EmptyString) as [rest|] eqn:Hp; [|discriminate].
    intros [= <- <-]. apply strip_prefix_app in Hp. split; [done|]. simpl; lia.
  - destruct (strip_prefix sep (String c s)) as [rest|] eqn:Hp.
    + intros [= <- <-]. apply strip_prefix_app in Hp. split; [done|]. simpl; lia.
    + destruct (str_partition sep s) as [[b a]|] eqn:Hs; [|discriminate].
      intros [= <- <-]. destruct (IH b eq_refl) as [-> Hleft].
      split; [done|]. intros pre post Hpre.
      destruct pre as [|x pre].
      * rewrite string_app_nil_l in Hpre.
        rewrite strip_prefix_None in Hp. by destruct (Hp post).
      * rewrite string_app_cons in Hpre. injection Hpre as -> Hpre.
        specialize (Hleft pre post Hpre). simpl. lia.
Qed.

Lemma str_partition_None sep s :
  str_partition sep s = None ↔ ¬ occurs_in sep s.
Proof.
  split.
  - induction s as [|c s IH]; rewrite str_partition_unfold.
    + destruct (strip_prefix sep EmptyString) eqn:Hp; [discriminate|].
      intros _ (pre & post & Hs). destruct pre; [|discriminate].
      rewrite strip_prefix_None in Hp. by destruct (Hp post).
    + destruct (strip_prefix sep (String c s)) eqn:Hp; [discriminate|].
      destruct (str_partition sep s) as [[b a]|] eqn:Hs; [discriminate|].
      intros _ (pre & post & Hpre). destruct pre as [|x pre].
      * rewrite strip_prefix_None in Hp. by destruct (Hp post).
      * rewrite string_app_cons in Hpre. injection Hpre as -> Hpre.
        apply IH; [done|]. by exists pre, post.
  - intros Hn. destruct (str_partition sep s) as [[b a]|] eqn:Hs; [|done].
    apply str_partition_Some in Hs as [Hs _]. destruct Hn. by exists b, a.
Qed.

Lemma split_pieces_eq c sep' s :
  split_pieces c sep' s =
    match str_partition (String c sep') s with
    | None => [s]
    | Some (before, after) => before :: split_pieces c sep' after
    end.
Proof.
  funelim (split_pieces c sep' s).
  all: match goal with H : str_partition _ _ = _ |- _ => rewrite H end.
  all: reflexivity.
Qed.

Lemma split_pieces_no_occurrence c sep' s :
  ¬ occurs_in (String c sep') s → split_pieces c sep' s = [s].
Proof.
  intros Hn%str_partition_None. by rewrite split_pieces_eq, Hn.
Qed.

Lemma str_contains_char_middle c l m :
  str_contains (String c EmptyString) (l +:+ String c m) = true.
Proof.
  induction l as [|a l IH].
  - rewrite string_app_nil_l. simpl. by rewrite decide_True.
  - rewrite string_app_cons. simpl. by case_decide.
Qed.

(** When the first character of the separator does not come back inside it,
    two occurrences cannot overlap, and the last piece of the split is what
    follows the last occurrence. *)
Lemma split_pieces_last c sep' s pre post :
  str_contains (String c EmptyString) sep' = false →
  s = pre +:+ String c sep' +:+ post →
  ¬ occurs_in (String c sep') post →
  last (split_pieces c sep' s) = Some post.
Proof.
  intros Hfresh Hs Hpost. revert pre Hs.
  induction s as [s IH] using (induction_ltof1 _ String.length). unfold ltof in IH.
  intros pre Hs. rewrite split_pieces_eq.
  destruct (str_partition (String c sep') s) as [[before after]|] eqn:Hp.
  2: { apply str_partition_None in Hp. destruct Hp. by exists pre, post. }
  apply str_partition_Some in Hp as [Hs' Hleft].
  specialize (Hleft pre post Hs).
  rewrite Hs in Hs'. symmetry in Hs'.
  destruct (string_app_eq_app _ _ _ _ Hs' Hleft) as (l & -> & Hrest).
  rewrite last_cons.
  destruct l as [|x l].
  - rewrite string_app_nil_l in Hrest. apply (inj _) in Hrest. subst after.
    by rewrite (split_pieces_no_occurrence _ _ _ Hpost).
  - destruct (decide (String.length (String c sep') ≤ String.length (String x l))%nat)
      as [Hle|Hgt].
    + destruct (string_app_eq_app _ _ _ _ Hrest Hle) as (l' & Hl & ->).
      rewrite (IH (l' +:+ String c sep' +:+ post)) with (pre := l'); [done| |done].
      apply (f_equal String.length) in Hl. rewrite string_length_app in Hl.
      rewrite Hs, !string_length_app. simpl in *. lia.
    + symmetry in Hrest.
      destruct (string_app_eq_app _ _ _ _ Hrest ltac:(lia)) as (m & Hsep & Hm).
      rewrite string_app_cons in Hsep. injection Hsep as -> Hsep.
      destruct m as [|d m].
      { apply (f_equal String.length) in Hsep. rewrite string_length_app in Hsep.
        simpl in *. lia. }
      rewrite !string_app_cons in Hm. injection Hm as <- _.
      rewrite Hsep, str_contains_char_middle in Hfresh. discriminate.
Qed.

Lemma after_last_no_occurrence c sep' s post :
  after_last_occurrence (String c sep') s post → ¬ occurs_in (String c sep') post.
Proof.
  intros (pre & Hs & Hmax) (p & q & ->).
  specialize (Hmax (pre +:+ String c sep' +:+ p) q).
  rewrite !string_length_app in Hmax. simpl in Hmax.
  assert (String.length pre + S (String.length sep' + String.length p) ≤ String.length pre)%nat;
    [|lia].
  apply Hmax. rewrite Hs. by rewrite !string_app_assoc.
Qed.


(** A string in which [sep] occurs has a last occurrence of it. *)
Lemma last_occurrence_exists sep s :
  occurs_in sep s → ∃ post, after_last_occurrence sep s post.
Proof.
  induction s as [|c s IH]; intros (pre & post & Hs).
  - destruct pre; [|discriminate]. exists post, EmptyString. split; [done|].
    intros [|? ?] post' Hs'; [done|discriminate].
  - destruct (str_partition sep s) as [[b a]|] eqn:Hp.
    + apply str_partition_Some in Hp as [Hb _].
      destruct IH as (post1 & pre1 & Hs1 & Hmax); [by exists b, a|].
      exists post1, (String c pre1). split; [by rewrite string_app_cons, <- Hs1|].
      intros [|x pre'] post' Hs'; [simpl; lia|].
      rewrite string_app_cons in Hs'. injection Hs' as -> Hs'.
      specialize (Hmax pre' post' Hs'). simpl. lia.
    + apply str_partition_None in Hp.
      destruct pre as [|x pre].
      2: { rewrite string_app_cons in Hs. injection Hs as -> Hs.
           destruct Hp. by exists pre, post. }
      exists post, EmptyString. split; [done|].
      intros [|x pre'] post' Hs'; [done|].
      rewrite string_app_cons in Hs'. injection Hs' as -> Hs'.
      destruct Hp. by exists pre', post'.
Qed.

(** [str.split] on a few inputs: pieces are cut at non-overlapping
    occurrences, scanning from the left. *)
Example split_Bearer : str_split "Bearer abc" "Bearer " = Return [EmptyString; "abc"].
Proof. reflexivity. Qed.

Example split_no_occurrence : str_split "Basic xyz" "Bearer " = Return ["Basic xyz"].
Proof. reflexivity. Qed.

Example split_overlapping : str_split "aaa" "aa" = Return [EmptyString; "a"].
Proof. reflexivity. Qed.

Example split_commas : str_split "a,b,,c" "," = Return ["a"; "b"; EmptyString; "c"].
Proof. reflexivity. Qed.

(** ** The bearer header *)

Import CERNKeycloakBearerAuthentication (get_access_token, get_kc_by_expected_token).

Lemma get_access_token_str (headers : gmap string PyObj) (v : string) :
  headers !! "Authorization" = Some (PyStr v) →
  get_access_token headers = list_last_item (split_pieces "B" "earer " v).
Proof.
  intros Hv. unfold get_access_token, CERNKeycloakBearerAuthentication.HEADER_KEY, dict_getitem.
  rewrite Hv. cbn [try_except result_bind py_split str_split].
  unfold list_last_item. by destruct (last _).
Qed.

Lemma split_pieces_nonempty c sep' s : split_pieces c sep' s ≠ [].
Proof.
  rewrite split_pieces_eq. by destruct (str_partition _ _) as [[? ?]|].
Qed.

(** C9.  For a header value that is a string, [get_access_token] returns what
    follows the last occurrence of ["Bearer "] (there is one as soon as
    ["Bearer "] occurs), returns the whole value when ["Bearer "] does not
    occur in it, and in every case returns a string: it raises nothing, in
    particular no [bad_access_token] failure. *)
Theorem get_access_token_after_last_Bearer (headers : gmap string PyObj) (v : string) :
  headers !! "Authorization" = Some (PyStr v) →
  (∀ post, after_last_occurrence "Bearer " v post → get_access_token headers = Return post) ∧
  (occurs_in "Bearer " v →
   ∃ post, after_last_occurrence "Bearer " v post ∧ get_access_token headers = Return post) ∧
  (¬ occurs_in "Bearer " v → get_access_token headers = Return v) ∧
  (∃ tok, get_access_token headers = Return tok).
Proof.
  intros Hv. rewrite (get_access_token_str _ _ Hv). unfold list_last_item.
  assert (∀ post, after_last_occurrence "Bearer " v post →
            last (split_pieces "B" "earer " v) = Some post) as Hafter.
  { intros post Hlast. pose proof (after_last_no_occurrence _ _ _ _ Hlast) as Hno.
    destruct Hlast as (pre & Hs & _).
    apply (split_pieces_last "B" "earer " v pre post eq_refl Hs Hno). }
  split; [|split; [|split]].
  - intros post Hlast. by rewrite (Hafter post Hlast).
  - intros (post & Hlast)%last_occurrence_exists. exists post.
    split; [done|]. by rewrite (Hafter post Hlast).
  - intros Hno. by rewrite (split_pieces_no_occurrence _ _ _ Hno).
  - destruct (last (split_pieces "B" "earer " v)) as [tok|] eqn:Hl; [by exists tok|].
    apply last_None in Hl. by destruct (split_pieces_nonempty "B" "earer " v).
Qed.

Lemma get_access_token_after_last_Bearer_witness :
  let headers : gmap string PyObj := {[ "Authorization" := PyStr "Bearer a.Bearer b.c" ]} in
  get_access_token headers = Return "b.c" ∧
  (∀ post, after_last_occurrence "Bearer " "Bearer a.Bearer b.c" post →
           get_access_token headers = Return post) ∧
  (occurs_in "Bearer " "Bearer a.Bearer b.c" →
   ∃ post, after_last_occurrence "Bearer " "Bearer a.Bearer b.c" post ∧
           get_access_token headers = Return post) ∧
  (¬ occurs_in "Bearer " "Bearer a.Bearer b.c" →
   get_access_token headers = Return "Bearer a.Bearer b.c") ∧
  (∃ tok, get_access_token headers = Return tok).
Proof.
  split; [reflexivity|].
  apply (get_access_token_after_last_Bearer _ "Bearer a.Bearer b.c"). reflexivity.
Defined.

(** ** Running the authenticators *)

Ltac unfold_monad :=
  unfold mbind, mret, M_bind, M_ret, bind, ret, raise, lift, get_globals,
    call_issue_api_token, call_CERNKeycloakToken, call_validate,
    call_CERNKeycloakUser, call in *.

Ltac unfold_authenticate :=
  unfold authenticate, CERNKeycloakClientSecretAuthentication.authenticate,
    CERNKeycloakClientSecretAuthentication.get_secret_key,
    CERNKeycloakClientSecretAuthentication.HEADER_KEY,
    CERNKeycloakBearerAuthentication.authenticate,
    CERNKeycloakBearerAuthentication.get_kc_by_expected_token,
    CERNKeycloakBearerAuthentication.getattr_expected_bearer_token_type in *.

Section Properties.
Context {C : Collaborators}.

Implicit Types (request : Request) (st : State) (self : CERNKeycloakBearerAuthentication.self_t).

Lemma get_access_token_missing (hs : gmap string PyObj) :
  hs !! "Authorization" = None →
  get_access_token hs =
    Raise (AuthenticationFailed ["Authorization header not found."; "authorization_not_found"]).
Proof.
  intros Hn. unfold get_access_token, CERNKeycloakBearerAuthentication.HEADER_KEY, dict_getitem.
  by rewrite Hn.
Qed.

(** C1, as the code has it.  Without an [X-CLIENT-SECRET] header the secret
    authenticator returns [None], raises nothing and calls no collaborator.
    Without an [Authorization] header a bearer authenticator does not return
    [None]: it raises the classified failure [authorization_not_found]. *)
Theorem absent_header_outcomes request st :
  (headers request !! "X-CLIENT-SECRET" = None →
   CERNKeycloakClientSecretAuthentication.authenticate request st = (Return None, st)) ∧
  (headers request !! "Authorization" = None →
   ∀ self, ∃ e,
     CERNKeycloakBearerAuthentication.authenticate self request st = (Raise e, st) ∧
     classified "authorization_not_found" e).
Proof.
  split.
  - intros Hn. unfold_authenticate. unfold dict_get. by rewrite Hn.
  - intros Hn self. eexists. unfold_authenticate. unfold_monad.
    rewrite (get_access_token_missing _ Hn). split; [reflexivity|]. by split.
Qed.

(** C3, as the code has it.  A secret that is no key of [api_clients_kc]
    makes the secret authenticator raise [AuthenticationFailed]; it never
    returns [None].  The exception is built from one string, the two adjacent
    literals joined, so it carries no code: the failure is not classified as
    [app_secret_not_authorized]. *)
Theorem unregistered_secret_raises_without_code request st (s : string) :
  headers request !! "X-CLIENT-SECRET" = Some (PyStr s) →
  api_clients_kc (globals st) !! s = None →
  ∃ e,
    CERNKeycloakClientSecretAuthentication.authenticate request st = (Raise e, st) ∧
    exn_class e = "AuthenticationFailed" ∧
    exn_args e = ["App secret is not authorized.app_secret_not_authorized"] ∧
    failure_code e = None ∧
    ¬ classified "app_secret_not_authorized" e.
Proof.
  intros Hs Hreg. eexists. unfold_authenticate. unfold dict_get. rewrite Hs. simpl.
  unfold_monad. simpl. rewrite Hreg.
  rewrite bool_decide_eq_false_2 by (by intros [? ?]). simpl.
  split; [reflexivity|]. repeat split. by intros [_ ?].
Qed.

(** C5.  The public authenticator validates against the public client with
    expected audiences [[public id]] and authorized parties [[public id]];
    the confidential one against the confidential client with audiences
    [[confidential id]] and authorized parties [[confidential id; public id]].
    These are the only arguments either ever hands to [validate]; and as soon
    as the token constructor has returned a token, the next call of the pass
    is [validate] on that token with exactly these sets, and it is the only
    [validate] call of the pass. *)
Theorem expected_claim_sets st :
  let g := globals st in
  let pub := KEYCLOAK_PUBLIC_CLIENT_ID (settings g) in
  let conf := KEYCLOAK_CONFIDENTIAL_CLIENT_ID (settings g) in
  let events self request :=
    new_events st (snd (CERNKeycloakBearerAuthentication.authenticate self request st)) in
  get_kc_by_expected_token CERNKeycloakPublicAuthentication st
    = (Return (public_kc g, [pub], [pub]), st) ∧
  get_kc_by_expected_token CERNKeycloakConfidentialAuthentication st
    = (Return (confidential_kc g, [conf], [conf; pub]), st) ∧
  (∀ request,
    Forall (λ args, args = ([pub], [pub]))
      (validate_arguments
         (new_events st
            (snd (CERNKeycloakBearerAuthentication.authenticate
                    CERNKeycloakPublicAuthentication request st)))) ∧
    Forall (λ args, args = ([conf], [conf; pub]))
      (validate_arguments
         (new_events st
            (snd (CERNKeycloakBearerAuthentication.authenticate
                    CERNKeycloakConfidentialAuthentication request st))))) ∧
  (∀ request raw token0 w1,
     get_access_token (headers request) = Return raw →
     new_CERNKeycloakToken raw (public_kc g) (world st) = (Return token0, w1) →
     take 2 (events CERNKeycloakPublicAuthentication request) =
       [Call_CERNKeycloakToken raw (public_kc g) (Return token0);
        Call_validate token0 [pub] [pub] (fst (validate token0 [pub] [pub] w1))] ∧
     validate_arguments (events CERNKeycloakPublicAuthentication request)
       = [([pub], [pub])]) ∧
  (∀ request raw token0 w1,
     get_access_token (headers request) = Return raw →
     new_CERNKeycloakToken raw (confidential_kc g) (world st) = (Return token0, w1) →
     take 2 (events CERNKeycloakConfidentialAuthentication request) =
       [Call_CERNKeycloakToken raw (confidential_kc g) (Return token0);
        Call_validate token0 [conf] [conf; pub]
          (fst (validate token0 [conf] [conf; pub] w1))] ∧
     validate_arguments (events CERNKeycloakConfidentialAuthentication request)
       = [([conf], [conf; pub])]).
Proof.
  intros g pub conf events. split; [reflexivity|]. split; [reflexivity|]. split.
  { intros request. unfold new_events. split.
    all: unfold_authenticate; unfold_monad; simpl.
    all: destruct (get_access_token (headers request)) as [raw|e]; simpl;
      [|rewrite drop_all; constructor].
    all: destruct (new_CERNKeycloakToken raw _ (world st)) as [[token|e] w1]; simpl;
      [|rewrite drop_app_length; constructor].
    all: destruct (validate token _ _ w1) as [[token'|e] w2]; simpl;
      [|rewrite <- app_assoc, drop_app_length; repeat constructor].
    all: destruct (new_CERNKeycloakUser token' w2) as [[user|e] w3]; simpl.
    all: rewrite <- !app_assoc, drop_app_length; repeat constructor. }
  split.
  all: intros request raw token0 w1 Hraw Htoken; subst events; unfold new_events.
  all: unfold_authenticate; unfold_monad; simpl.
  all: rewrite Hraw; simpl; fold g; rewrite Htoken; simpl.
  all: destruct (validate token0 _ _ w1) as [[token'|e] w2]; simpl;
    [|by rewrite <- app_assoc, drop_app_length].
  all: destruct (new_CERNKeycloakUser token' w2) as [[user|e] w3]; simpl.
  all: by rewrite <- !app_assoc, drop_app_length.
Qed.

(** C10.  [get_kc_by_expected_token] raises [ValueError] for every value of
    [expected_bearer_token_type] other than ["public"] and ["confidential"],
    and returns normally for the instances the two exported classes
    construct. *)
Theorem get_kc_by_expected_token_ValueError st :
  (∀ v, v ≠ PyStr "public" → v ≠ PyStr "confidential" →
     get_kc_by_expected_token
       {| CERNKeycloakBearerAuthentication.expected_bearer_token_type := Some v |} st
     = (Raise (ValueError ["expected_bearer_token_type should only be public or confidential."]),
        st)) ∧
  (∀ self,
     self = CERNKeycloakPublicAuthentication ∨ self = CERNKeycloakConfidentialAuthentication →
     ∃ r, get_kc_by_expected_token self st = (Return r, st)).
Proof.
  split.
  - intros v Hp Hc. unfold_authenticate. unfold_monad. simpl.
    by rewrite !decide_False.
  - intros self [-> | ->]; eexists; reflexivity.
Qed.

End Properties.

Ltac norm_events :=
  unfold new_events in *; simpl in *;
  rewrite <- ?app_assoc, ?drop_app_length, ?drop_all in *; simpl in *.

(** Case analysis on the outcome of the next collaborator call of a run. *)
Ltac step_call Hrun f :=
  match type of Hrun with
  | context [f ?w] =>
      let r := fresh "r" in let e := fresh "e" in let w' := fresh "w" in
      let H := fresh "Hcall" in
      destruct (f w) as [[r|e] w'] eqn:H; simpl in Hrun
  end.

Ltac finish_run Hrun := injection Hrun as <- <-; norm_events.

Section Lifecycle.
Context {C : Collaborators}.

Implicit Types (request : Request) (st : State) (token : CERNKeycloakToken).

(** C4.  For a secret registered to the client [kc], the secret authenticator
    first asks [kc] itself for a token and never calls [validate].  When the
    collaborators return normally it hands back the user built from that very
    token, marked trusted: whenever a user is returned, the token returned
    with it has [is_authenticated] set and its [claims] are the unverified
    claims of the token the constructor built from the ["access_token"] of
    what [issue_api_token] returned for [kc]; its other attributes are as the
    constructor left them, and the user was built from the token so marked. *)
Theorem registered_secret_mints_and_trusts request st (s : string) (kc : CERNKeycloakOIDC)
    outcome st' :
  headers request !! "X-CLIENT-SECRET" = Some (PyStr s) →
  api_clients_kc (globals st) !! s = Some kc →
  CERNKeycloakClientSecretAuthentication.authenticate request st = (outcome, st') →
  let evs := new_events st st' in
  head evs = Some (Call_issue_api_token kc (fst (issue_api_token kc (world st)))) ∧
  Forall (λ ev, is_validate_call ev = false) evs ∧
  (∀ issued_token w1 raw token0 w2 user w3,
     issue_api_token kc (world st) = (Return issued_token, w1) →
     issued_token !! "access_token" = Some raw →
     new_CERNKeycloakToken raw kc w1 = (Return token0, w2) →
     new_CERNKeycloakUser (patch_trusted token0) w2 = (Return user, w3) →
     outcome = Return (Some (user, patch_trusted token0))) ∧
  (∀ user token,
     outcome = Return (Some (user, token)) →
     PreTrusted evs token ∧ Call_CERNKeycloakUser token (Return user) ∈ evs) ∧
  (∀ user token,
     outcome = Return (Some (user, token)) →
     is_authenticated token = true ∧
     ∃ issued_token w1 raw token0 w2 w3,
       issue_api_token kc (world st) = (Return issued_token, w1) ∧
       issued_token !! "access_token" = Some raw ∧
       new_CERNKeycloakToken raw kc w1 = (Return token0, w2) ∧
       claims token = Some (unv_claims token0) ∧
       access_token token = access_token token0 ∧
       token_kc token = token_kc token0 ∧
       unv_claims token = unv_claims token0 ∧
       new_CERNKeycloakUser token w2 = (Return user, w3)).
Proof.
  intros Hs Hreg Hrun. unfold_authenticate. unfold dict_get in Hrun.
  rewrite Hs in Hrun. simpl in Hrun. unfold_monad. simpl in Hrun.
  unfold dict_getitem in Hrun. rewrite Hreg in Hrun.
  rewrite bool_decide_eq_true_2 in Hrun by eauto. simpl in Hrun.
  step_call Hrun (issue_api_token kc).
  2: { finish_run Hrun. split; [done|]. split; [repeat constructor|].
       split; [congruence|]. split; congruence. }
  destruct (r !! "access_token") as [raw|] eqn:Hraw; simpl in Hrun.
  2: { finish_run Hrun. split; [done|]. split; [repeat constructor|].
       split; [|split; congruence]. intros * [= <- <-]. congruence. }
  step_call Hrun (new_CERNKeycloakToken raw kc).
  2: { finish_run Hrun. split; [done|]. split; [repeat constructor|].
       split; [|split; congruence]. intros * [= <- <-] ? ? ?. simplify_eq. congruence. }
  change (set_claims _ (set_is_authenticated true r0)) with (patch_trusted r0) in Hrun.
  step_call Hrun (new_CERNKeycloakUser (patch_trusted r0)).
  all: finish_run Hrun; (split; [done|]); (split; [repeat constructor|]); split.
  - intros * [= <- <-] ? ? ?. simplify_eq. congruence.
  - split.
    + intros user token [= <- <-]. split; [|set_solver].
      exists kc, r, raw, r0. set_solver.
    + intros user token [= <- <-]. split; [reflexivity|].
      exists r, w, raw, r0, w0, w1. by repeat split.
  - intros * [= <- <-] ? ? ?. simplify_eq. congruence.
  - split; congruence.
Qed.

(** C6.  Whatever the request, the user constructor is only ever given a
    token that is Validated (a [validate] call returned normally and left it
    so) or PreTrusted (built from what [issue_api_token] has just returned,
    then patched); and a returned user is the one built from the token
    returned with it. *)
Theorem principal_only_for_validated_or_pretrusted (a : Authenticator) request st outcome st' :
  authenticate a request st = (outcome, st') →
  let evs := new_events st st' in
  (∀ token, token ∈ user_tokens evs → Validated evs token ∨ PreTrusted evs token) ∧
  (∀ user token,
     outcome = Return (Some (user, token)) →
     Call_CERNKeycloakUser token (Return user) ∈ evs ∧
     (Validated evs token ∨ PreTrusted evs token)).
Proof.
  intros Hrun. destruct a as [|self]; unfold_authenticate.
  - unfold dict_get in Hrun.
    destruct (headers request !! "X-CLIENT-SECRET") as [[|s|z]|]; simpl in Hrun;
      unfold_monad; simpl in Hrun.
    1,3,4: finish_run Hrun; split; [set_solver|congruence].
    unfold dict_getitem in Hrun.
    destruct (api_clients_kc (globals st) !! s) as [kc|] eqn:Hreg.
    2: { rewrite bool_decide_eq_false_2 in Hrun by (by intros [? ?]). simpl in Hrun.
         finish_run Hrun; split; [set_solver|congruence]. }
    rewrite bool_decide_eq_true_2 in Hrun by eauto. simpl in Hrun.
    step_call Hrun (issue_api_token kc).
    2: { finish_run Hrun; split; [set_solver|congruence]. }
    destruct (r !! "access_token") as [raw|] eqn:Hraw; simpl in Hrun.
    2: { finish_run Hrun; split; [set_solver|congruence]. }
    step_call Hrun (new_CERNKeycloakToken raw kc).
    2: { finish_run Hrun; split; [set_solver|congruence]. }
    change (set_claims _ (set_is_authenticated true r0)) with (patch_trusted r0) in Hrun.
    assert (∀ x, PreTrusted
              [Call_issue_api_token kc (Return r); Call_CERNKeycloakToken raw kc (Return r0);
               Call_CERNKeycloakUser (patch_trusted r0) x] (patch_trusted r0)) as Hpre.
    { intros x. exists kc, r, raw, r0. set_solver. }
    step_call Hrun (new_CERNKeycloakUser (patch_trusted r0)); finish_run Hrun.
    + split.
      * intros token ->%list_elem_of_singleton. by right.
      * intros user token [= <- <-]. split; [set_solver|by right].
    + split; [|congruence].
      intros token ->%list_elem_of_singleton. by right.
  - unfold_monad. destruct (get_access_token (headers request)) as [raw|e]; simpl in Hrun.
    2: { finish_run Hrun; split; [set_solver|congruence]. }
    destruct (CERNKeycloakBearerAuthentication.expected_bearer_token_type self) as [t|];
      simpl in Hrun.
    2: { finish_run Hrun; split; [set_solver|congruence]. }
    repeat case_decide; simpl in Hrun.
    3: { finish_run Hrun; split; [set_solver|congruence]. }
    all: step_call Hrun (new_CERNKeycloakToken raw);
      [|finish_run Hrun; split; [set_solver|congruence]].
    all: step_call Hrun (validate r);
      [|finish_run Hrun; split; [set_solver|congruence]].
    all: step_call Hrun (new_CERNKeycloakUser r0); finish_run Hrun.
    all: split;
      [intros token ->%list_elem_of_singleton; left; eexists _, _, _;
       apply list_elem_of_further, list_elem_of_here|].
    all: try congruence.
    all: intros user token [= <- <-]; split; [set_solver|].
    all: left; eexists _, _, _; apply list_elem_of_further, list_elem_of_here.
Qed.

End Lifecycle.

(** ** The module globals are read-only *)

Create HintDb frame discriminated.

Section Frame.
Context {C : Collaborators}.

Lemma keeps_globals_ret {A} (a : A) : keeps_globals (ret a).
Proof. done. Qed.

Lemma keeps_globals_raise {A} (e : exn) : keeps_globals (raise (A:=A) e).
Proof. done. Qed.

Lemma keeps_globals_lift {A} (r : result A) : keeps_globals (lift r).
Proof. done. Qed.

Lemma keeps_globals_get : keeps_globals get_globals.
Proof. done. Qed.

Lemma put_globals_assigns (g : Globals) (st : State) :
  globals (snd (put_globals g st)) = g.
Proof. done. Qed.

Lemma keeps_globals_call {A} (f : World → result A * World) (ev : result A → Event) :
  keeps_globals (call f ev).
Proof. intros st. unfold call. by destruct (f (world st)). Qed.

Lemma keeps_globals_bind {A B} (m : M A) (k : A → M B) :
  keeps_globals m → (∀ a, keeps_globals (k a)) → keeps_globals (m ≫= k).
Proof.
  intros Hm Hk st. unfold mbind, M_bind, bind. specialize (Hm st).
  destruct (m st) as [[a|e] st1]; simpl in *; [|done].
  by rewrite Hk.
Qed.

Hint Resolve keeps_globals_ret keeps_globals_raise keeps_globals_lift keeps_globals_get
  keeps_globals_call : frame.

Ltac frame_step :=
  first [ apply keeps_globals_bind; [solve [auto with frame]|intros ?]
        | solve [auto with frame] ].

Lemma keeps_globals_secret request :
  keeps_globals (CERNKeycloakClientSecretAuthentication.authenticate request).
Proof.
  unfold CERNKeycloakClientSecretAuthentication.authenticate.
  destruct (CERNKeycloakClientSecretAuthentication.get_secret_key _); [frame_step|..].
  all: frame_step; destruct (negb _); [frame_step|].
  all: unfold call_issue_api_token, call_CERNKeycloakToken, call_CERNKeycloakUser.
  all: repeat frame_step.
Qed.

Lemma keeps_globals_bearer self request :
  keeps_globals (CERNKeycloakBearerAuthentication.authenticate self request).
Proof.
  unfold CERNKeycloakBearerAuthentication.authenticate,
    CERNKeycloakBearerAuthentication.get_kc_by_expected_token.
  frame_step. apply keeps_globals_bind.
  - do 2 frame_step. repeat case_decide; frame_step.
  - intros [[kc valid_aud] valid_azp].
    unfold call_validate, call_CERNKeycloakToken, call_CERNKeycloakUser.
    repeat frame_step.
Qed.

Lemma keeps_globals_authenticate (a : Authenticator) request : keeps_globals (authenticate a request).
Proof. destruct a; [apply keeps_globals_secret | apply keeps_globals_bearer]. Qed.

Lemma authentication_passes_keep_globals (passes : list (Authenticator * Request)) (st : State) :
  globals (snd (authentication_passes passes st)) = globals st.
Proof.
  revert st. induction passes as [|[a request] passes IH]; intros st; simpl; [done|].
  pose proof (keeps_globals_authenticate a request st) as Ha.
  destruct (authenticate a request st) as [outcome st1]. simpl in Ha.
  specialize (IH st1). destruct (authentication_passes passes st1) as [outcomes st2].
  simpl in *. congruence.
Qed.

End Frame.

Section HeapFrame.
Variable C : Collaborators.

Lemma keeps_clients_ret {A} (a : A) : @keeps_clients C A (@ret (heap_collaborators C) A a).
Proof. done. Qed.

Lemma keeps_clients_raise {A} (e : exn) :
  @keeps_clients C A (@raise (heap_collaborators C) A e).
Proof. done. Qed.

Lemma keeps_clients_lift {A} (r : result A) :
  @keeps_clients C A (@lift (heap_collaborators C) A r).
Proof. done. Qed.

Lemma keeps_clients_get : @keeps_clients C _ (@get_globals (heap_collaborators C)).
Proof. done. Qed.

Lemma keeps_clients_call {A} (method : @World C → result A * @World C)
    (ev : result A → @Event (heap_collaborators C)) :
  @keeps_clients C A (@call (heap_collaborators C) A (leaves_clients method) ev).
Proof.
  intros st. unfold call, leaves_clients.
  by destruct (method (heap_outside (world st))).
Qed.

Lemma keeps_clients_bind {A B} (m : @M (heap_collaborators C) A)
    (k : A → @M (heap_collaborators C) B) :
  keeps_clients m → (∀ a, keeps_clients (k a)) → keeps_clients (m ≫= k).
Proof.
  intros Hm Hk st. unfold mbind, M_bind, bind. specialize (Hm st).
  destruct (m st) as [[a|e] st1]; simpl in *; [|done].
  by rewrite Hk.
Qed.

Ltac clients_step :=
  first [ apply keeps_clients_bind; [clients_leaf|intros ?] | clients_leaf ]
with clients_leaf :=
  first [ apply keeps_clients_ret | apply keeps_clients_raise | apply keeps_clients_lift
        | apply keeps_clients_get | apply keeps_clients_call ].

Lemma keeps_clients_secret (request : Request) :
  keeps_clients (@CERNKeycloakClientSecretAuthentication.authenticate
                   (heap_collaborators C) request).
Proof.
  unfold CERNKeycloakClientSecretAuthentication.authenticate.
  destruct (CERNKeycloakClientSecretAuthentication.get_secret_key _); [clients_step|..].
  all: clients_step; destruct (negb _); [clients_step|].
  all: unfold call_issue_api_token, call_CERNKeycloakToken, call_CERNKeycloakUser.
  all: repeat clients_step.
Qed.

Lemma keeps_clients_bearer self (request : Request) :
  keeps_clients (@CERNKeycloakBearerAuthentication.authenticate
                   (heap_collaborators C) self request).
Proof.
  unfold CERNKeycloakBearerAuthentication.authenticate,
    CERNKeycloakBearerAuthentication.get_kc_by_expected_token.
  clients_step. apply keeps_clients_bind.
  - do 2 clients_step. repeat case_decide; clients_step.
  - intros [[kc valid_aud] valid_azp].
    unfold call_validate, call_CERNKeycloakToken, call_CERNKeycloakUser.
    repeat clients_step.
Qed.

Lemma authentication_passes_keep_clients (passes : list (Authenticator * Request))
    (st : @State (heap_collaborators C)) :
  heap_clients (world (snd (@authentication_passes (heap_collaborators C) passes st)))
    = heap_clients (world st).
Proof.
  revert st. induction passes as [|[a request] passes IH]; intros st; simpl; [done|].
  assert (heap_clients (world (snd (@authenticate (heap_collaborators C) a request st)))
            = heap_clients (world st))
    as Ha by (destruct a; [apply keeps_clients_secret | apply keeps_clients_bearer]).
  destruct (@authenticate (heap_collaborators C) a request st) as [outcome st1]. simpl in Ha.
  specialize (IH st1).
  destruct (@authentication_passes (heap_collaborators C) passes st1) as [outcomes st2].
  simpl in *. congruence.
Qed.

End HeapFrame.


(** ** Verified claims and the validation state *)

(** Walks a membership hypothesis down a list of known events. *)
Ltac no_other_validate Hin :=
  repeat (apply elem_of_cons in Hin as [Hin|Hin]; [by simplify_eq|]);
  by apply elem_of_nil in Hin.

Section ClaimsInvariant.
Context {C : Collaborators}.

Implicit Types (request : Request) (st : State) (token : CERNKeycloakToken).

Lemma Validated_needs_validate_call (evs : list Event) token :
  Validated evs token → existsb is_validate_call evs = true.
Proof.
  intros (token0 & aud & azp & Hin). apply existsb_exists.
  exists (Call_validate token0 aud azp (Return token)).
  split; [by apply list_elem_of_In|done].
Qed.

Lemma PreTrusted_populated (evs : list Event) token :
  PreTrusted evs token → claims_populated token.
Proof. intros (kc & issued & raw & token0 & _ & _ & _ & ->). by eexists. Qed.

(** Tokens leave the constructor without verified claims and leave a
    successful [validate] with them. *)
Hypothesis new_token_unpopulated : ∀ raw kc w token w',
  new_CERNKeycloakToken raw kc w = (Return token, w') → claims token = None.
Hypothesis validate_populates : ∀ token0 valid_aud valid_azp w token w',
  validate token0 valid_aud valid_azp w = (Return token, w') → claims_populated token.

Lemma claims_follow_state (a : Authenticator) request st outcome st' :
  authenticate a request st = (outcome, st') →
  let evs := new_events st st' in
  ∀ token, token ∈ produced_tokens evs →
    (claims_populated token ↔ Validated evs token ∨ PreTrusted evs token).
Proof.
  intros Hrun.
  assert (∀ evs token, claims token = None →
            (∀ t0 aud azp, Call_validate t0 aud azp (Return token) ∈ evs →
                           claims_populated token) →
            (claims_populated token ↔ Validated evs token ∨ PreTrusted evs token)) as Hfresh.
  { intros evs token Hnone Hval. split.
    - intros [c Hc]. congruence.
    - intros [(t0 & aud & azp & Hin)|Hp]; [by eapply Hval|by eapply PreTrusted_populated]. }
  destruct a as [|self]; unfold_authenticate.
  - unfold dict_get in Hrun.
    destruct (headers request !! "X-CLIENT-SECRET") as [[|s|z]|]; simpl in Hrun;
      unfold_monad; simpl in Hrun.
    1,3,4: finish_run Hrun; set_solver.
    unfold dict_getitem in Hrun.
    destruct (api_clients_kc (globals st) !! s) as [kc|] eqn:Hreg.
    2: { rewrite bool_decide_eq_false_2 in Hrun by (by intros [? ?]). simpl in Hrun.
         finish_run Hrun; set_solver. }
    rewrite bool_decide_eq_true_2 in Hrun by eauto. simpl in Hrun.
    step_call Hrun (issue_api_token kc).
    2: { finish_run Hrun; set_solver. }
    destruct (r !! "access_token") as [raw|] eqn:Hraw; simpl in Hrun.
    2: { finish_run Hrun; set_solver. }
    step_call Hrun (new_CERNKeycloakToken raw kc).
    2: { finish_run Hrun; set_solver. }
    change (set_claims _ (set_is_authenticated true r0)) with (patch_trusted r0) in Hrun.
    apply new_token_unpopulated in Hcall0 as Hnone.
    step_call Hrun (new_CERNKeycloakUser (patch_trusted r0)); finish_run Hrun.
    all: intros token [->| ->%list_elem_of_singleton]%elem_of_cons.
    1,3: apply Hfresh; [done|]; intros * Hin; no_other_validate Hin.
    all: split; [intros _; right; exists kc, r, raw, r0|by eexists].
    all: split; [apply list_elem_of_here|].
    all: split; [done|].
    all: split; [apply list_elem_of_further, list_elem_of_here|done].
  - unfold_monad. destruct (get_access_token (headers request)) as [raw|e]; simpl in Hrun.
    2: { finish_run Hrun; set_solver. }
    destruct (CERNKeycloakBearerAuthentication.expected_bearer_token_type self) as [t|];
      simpl in Hrun.
    2: { finish_run Hrun; set_solver. }
    repeat case_decide; simpl in Hrun.
    3: { finish_run Hrun; set_solver. }
    all: step_call Hrun (new_CERNKeycloakToken raw); [|finish_run Hrun; set_solver].
    all: apply new_token_unpopulated in Hcall as Hnone.
    all: step_call Hrun (validate r).
    2,4: finish_run Hrun; intros token ->%list_elem_of_singleton;
      apply Hfresh; [done|]; intros * Hin; no_other_validate Hin.
    all: apply validate_populates in Hcall0 as Hpop.
    all: step_call Hrun (new_CERNKeycloakUser r0); finish_run Hrun.
    all: intros token [->|Hin]%elem_of_cons;
      [apply Hfresh; [done|]; intros * Hin; no_other_validate Hin|].
    all: assert (token = r0) as ->
      by (repeat (apply elem_of_cons in Hin as [Hin|Hin]; [done|]);
          by apply elem_of_nil in Hin).
    all: split; [intros _; left|done].
    all: eexists _, _, _; apply list_elem_of_further, list_elem_of_here.
Qed.

End ClaimsInvariant.

Section SpecInvariant.
Variable idp : IdentityProvider.

Lemma spec_new_token_unpopulated raw kc w token w' :
  spec_new_token idp raw kc w = (Return token, w') → claims token = None.
Proof.
  unfold spec_new_token. destruct (idp_decode_unverified idp raw); [|discriminate].
  by intros [= <- _].
Qed.

Lemma spec_validate_populates token0 valid_aud valid_azp w token w' :
  spec_validate idp token0 valid_aud valid_azp w = (Return token, w') →
  claims_populated token.
Proof.
  unfold spec_validate. destruct (_ || _); [discriminate|].
  destruct (idp_verify idp _ _ w) as [[c|e] w1]; [|discriminate].
  repeat (destruct (negb _); [discriminate|]).
  intros [= <- _]. by eexists.
Qed.

(** C7, as the code has it.  With token and user classes that behave as the
    spec describes them, every token state a pass produces has its verified
    claims populated exactly when it is Validated or PreTrusted. *)
Theorem claims_populated_iff_validated_or_pretrusted
    (a : Authenticator) (request : Request) (st : @State (spec_collaborators idp))
    outcome st' :
  @authenticate (spec_collaborators idp) a request st = (outcome, st') →
  let evs := new_events st st' in
  ∀ token, token ∈ produced_tokens evs →
    (claims_populated token ↔ Validated evs token ∨ PreTrusted evs token).
Proof.
  apply (@claims_follow_state (spec_collaborators idp)).
  - apply spec_new_token_unpopulated.
  - apply spec_validate_populates.
Qed.

End SpecInvariant.

(** ** The code on concrete requests *)

(** C2, as the code has it.  An [Authorization] header ["Basic xyz"] is not
    rejected: [get_access_token] returns the whole value, and the bearer
    authenticator goes on to build a token from it. *)
Theorem basic_header_is_taken_as_token `{C : Collaborators} (st : State) :
  let request := Demo.request_with "Authorization" "Basic xyz" in
  let kc := public_kc (globals st) in
  get_access_token (headers request) = Return "Basic xyz" ∧
  head (new_events st
          (snd (CERNKeycloakBearerAuthentication.authenticate
                  CERNKeycloakPublicAuthentication request st)))
    = Some (Call_CERNKeycloakToken "Basic xyz" kc
              (fst (new_CERNKeycloakToken "Basic xyz" kc (world st)))).
Proof.
  intros request kc. split; [reflexivity|].
  unfold_authenticate. unfold_monad.
  change (get_access_token (headers request)) with (Return (A:=string) "Basic xyz").
  simpl. fold kc.
  destruct (new_CERNKeycloakToken "Basic xyz" kc (world st)) as [[token|e] w1]; simpl.
  2: { by norm_events. }
  destruct (validate token _ _ w1) as [[token'|e] w2]; simpl.
  2: { by norm_events. }
  destruct (new_CERNKeycloakUser token' w2) as [[user|e] w3]; simpl; by norm_events.
Qed.

(** The bearer authenticator on a request without [Authorization]: the
    outcome is a raised failure, not [None]. *)
Lemma bearer_missing_header_is_not_None :
  headers Demo.no_headers !! "Authorization" = None ∧
  fst (@CERNKeycloakBearerAuthentication.authenticate Demo.collaborators
         CERNKeycloakPublicAuthentication Demo.no_headers Demo.st0)
    = Raise (AuthenticationFailed ["Authorization header not found."; "authorization_not_found"]) ∧
  fst (@CERNKeycloakBearerAuthentication.authenticate Demo.collaborators
         CERNKeycloakPublicAuthentication Demo.no_headers Demo.st0)
    ≠ Return None.
Proof. split; [reflexivity|]. split; [reflexivity|discriminate]. Qed.

(** The secret authenticator on the registered secret ["S2"]: the token it
    returns has its verified claims populated although no [validate] call
    was made, so it is not Validated. *)
Lemma claims_populated_without_validation :
  let evs := new_events Demo.st0 (snd (Demo.secret_pass "S2")) in
  ∃ user token,
    fst (Demo.secret_pass "S2") = Return (Some (user, token)) ∧
    token ∈ produced_tokens evs ∧
    ¬ (claims_populated token ↔ Validated evs token).
Proof.
  intros evs. eexists _, _. split; [vm_compute; reflexivity|]. split.
  - vm_compute. apply list_elem_of_further, list_elem_of_here.
  - intros [Hv _].
    assert (existsb is_validate_call evs = true) as Hex.
    { eapply Validated_needs_validate_call. apply Hv. by eexists. }
    vm_compute in Hex. discriminate.
Qed.

Lemma absent_header_outcomes_witness :
  headers Demo.no_headers !! "X-CLIENT-SECRET" = None ∧
  headers Demo.no_headers !! "Authorization" = None ∧
  @CERNKeycloakClientSecretAuthentication.authenticate Demo.collaborators
    Demo.no_headers Demo.st0 = (Return None, Demo.st0) ∧
  ∀ self, ∃ e,
    @CERNKeycloakBearerAuthentication.authenticate Demo.collaborators
      self Demo.no_headers Demo.st0 = (Raise e, Demo.st0) ∧
    classified "authorization_not_found" e.
Proof.
  split; [reflexivity|]. split; [reflexivity|].
  destruct (@absent_header_outcomes Demo.collaborators Demo.no_headers Demo.st0)
    as [Hsecret Hbearer].
  split; [apply Hsecret; reflexivity | apply Hbearer; reflexivity].
Defined.

Lemma unregistered_secret_raises_without_code_witness :
  ∃ e,
    Demo.secret_pass "S1" = (Raise e, Demo.st0) ∧
    exn_class e = "AuthenticationFailed" ∧
    exn_args e = ["App secret is not authorized.app_secret_not_authorized"] ∧
    failure_code e = None ∧
    ¬ classified "app_secret_not_authorized" e.
Proof.
  apply (@unregistered_secret_raises_without_code Demo.collaborators
           (Demo.request_with "X-CLIENT-SECRET" "S1") Demo.st0 "S1");
    vm_compute; reflexivity.
Defined.

Lemma registered_secret_mints_and_trusts_witness :
  let outcome := fst (Demo.secret_pass "S2") in
  let evs := new_events Demo.st0 (snd (Demo.secret_pass "S2")) in
  head evs = Some (Call_issue_api_token Demo.robot_kc
                     (fst (@issue_api_token Demo.collaborators Demo.robot_kc 0))) ∧
  Forall (λ ev, is_validate_call ev = false) evs ∧
  (∀ issued_token w1 raw token0 w2 user w3,
     @issue_api_token Demo.collaborators Demo.robot_kc 0 = (Return issued_token, w1) →
     issued_token !! "access_token" = Some raw →
     @new_CERNKeycloakToken Demo.collaborators raw Demo.robot_kc w1 = (Return token0, w2) →
     @new_CERNKeycloakUser Demo.collaborators (patch_trusted token0) w2 = (Return user, w3) →
     outcome = Return (Some (user, patch_trusted token0))) ∧
  (∀ user token,
     outcome = Return (Some (user, token)) →
     PreTrusted evs token ∧ Call_CERNKeycloakUser token (Return user) ∈ evs) ∧
  (∀ user token,
     outcome = Return (Some (user, token)) →
     is_authenticated token = true ∧
     ∃ issued_token w1 raw token0 w2 w3,
       @issue_api_token Demo.collaborators Demo.robot_kc 0 = (Return issued_token, w1) ∧
       issued_token !! "access_token" = Some raw ∧
       @new_CERNKeycloakToken Demo.collaborators raw Demo.robot_kc w1 = (Return token0, w2) ∧
       claims token = Some (unv_claims token0) ∧
       access_token token = access_token token0 ∧
       token_kc token = token_kc token0 ∧
       unv_claims token = unv_claims token0 ∧
       @new_CERNKeycloakUser Demo.collaborators token w2 = (Return user, w3)).
Proof.
  apply (@registered_secret_mints_and_trusts Demo.collaborators
           (Demo.request_with "X-CLIENT-SECRET" "S2") Demo.st0 "S2" Demo.robot_kc
           (fst (Demo.secret_pass "S2")) (snd (Demo.secret_pass "S2")));
    vm_compute; reflexivity.
Defined.

Lemma expected_claim_sets_witness :
  let evs :=
    new_events Demo.st0
      (snd (Demo.bearer_pass CERNKeycloakPublicAuthentication "Bearer tok-public")) in
  get_access_token (headers (Demo.request_with "Authorization" "Bearer tok-public"))
    = Return "tok-public" ∧
  (∃ other, take 2 evs =
     [Call_CERNKeycloakToken "tok-public" (public_kc (globals Demo.st0))
        (fst (@new_CERNKeycloakToken Demo.collaborators "tok-public"
                (public_kc (globals Demo.st0)) 0%nat));
      other] ∧ is_validate_call other = true) ∧
  validate_arguments evs = [(["dials-public"], ["dials-public"])].
Proof.
  intros evs. split; [reflexivity|].
  destruct (@expected_claim_sets Demo.collaborators Demo.st0) as (_ & _ & _ & Hpublic & _).
  edestruct (Hpublic (Demo.request_with "Authorization" "Bearer tok-public") "tok-public")
    as [Htake Hargs]; [reflexivity | vm_compute; reflexivity |].
  split; [|exact Hargs].
  eexists. split; [exact Htake | reflexivity].
Defined.

Lemma principal_only_for_validated_or_pretrusted_witness :
  let run := Demo.bearer_pass CERNKeycloakConfidentialAuthentication "Bearer tok-exchanged" in
  let evs := new_events Demo.st0 (snd run) in
  (∃ user token, fst run = Return (Some (user, token))) ∧
  (∀ token, token ∈ user_tokens evs → Validated evs token ∨ PreTrusted evs token) ∧
  (∀ user token,
     fst run = Return (Some (user, token)) →
     Call_CERNKeycloakUser token (Return user) ∈ evs ∧
     (Validated evs token ∨ PreTrusted evs token)).
Proof.
  intros run evs. split; [eexists _, _; vm_compute; reflexivity|].
  apply (@principal_only_for_validated_or_pretrusted Demo.collaborators
           (Bearer CERNKeycloakConfidentialAuthentication)
           (Demo.request_with "Authorization" "Bearer tok-exchanged") Demo.st0
           (fst run) (snd run)).
  vm_compute; reflexivity.
Defined.

Lemma claims_populated_iff_validated_or_pretrusted_witness :
  let run := Demo.secret_pass "S2" in
  let evs := new_events Demo.st0 (snd run) in
  length (produced_tokens evs) = 2%nat ∧
  ∀ token, token ∈ produced_tokens evs →
    (claims_populated token ↔ Validated evs token ∨ PreTrusted evs token).
Proof.
  intros run evs. split; [vm_compute; reflexivity|].
  apply (claims_populated_iff_validated_or_pretrusted Demo.idp ClientSecret
           (Demo.request_with "X-CLIENT-SECRET" "S2") Demo.st0 (fst run) (snd run)).
  vm_compute; reflexivity.
Defined.

Lemma get_kc_by_expected_token_ValueError_witness :
  @get_kc_by_expected_token Demo.collaborators
    {| CERNKeycloakBearerAuthentication.expected_bearer_token_type := Some (PyStr "private") |}
    Demo.st0
  = (Raise (ValueError ["expected_bearer_token_type should only be public or confidential."]),
     Demo.st0) ∧
  ∃ r, @get_kc_by_expected_token Demo.collaborators CERNKeycloakPublicAuthentication Demo.st0
       = (Return r, Demo.st0).
Proof.
  destruct (@get_kc_by_expected_token_ValueError Demo.collaborators Demo.st0) as [Hbad Hgood].
  split.
  - apply Hbad; discriminate.
  - apply Hgood. left; reflexivity.
Defined.

(** * Further properties of the authenticators *)

Section Abstention.
Context {C : Collaborators}.

Implicit Types (request : Request) (st : State) (self : CERNKeycloakBearerAuthentication.self_t).

Lemma get_kc_by_expected_token_state self st :
  snd (get_kc_by_expected_token self st) = st.
Proof.
  unfold_authenticate. unfold_monad.
  destruct (CERNKeycloakBearerAuthentication.expected_bearer_token_type self); simpl; [|done].
  by repeat case_decide.
Qed.

(** The secret authenticator abstains exactly when [headers.get] gives
    [None]: in every other case a pass ends in a user or in a raised
    exception. *)
Theorem secret_abstains_iff request st :
  fst (CERNKeycloakClientSecretAuthentication.authenticate request st) = Return None ↔
  CERNKeycloakClientSecretAuthentication.get_secret_key (headers request) = PyNone.
Proof.
  split.
  - destruct (CERNKeycloakClientSecretAuthentication.authenticate request st)
      as [outcome st'] eqn:Hrun.
    simpl. intros ->. unfold_authenticate.
    destruct (dict_get (headers request) "X-CLIENT-SECRET") as [|s|z] eqn:Hget;
      [done|..]; exfalso; simpl in Hrun; unfold_monad; simpl in Hrun.
    2: { by injection Hrun. }
    unfold dict_getitem in Hrun.
    destruct (api_clients_kc (globals st) !! s) as [kc|] eqn:Hreg.
    2: { rewrite bool_decide_eq_false_2 in Hrun by (by intros [? ?]). by injection Hrun. }
    rewrite bool_decide_eq_true_2 in Hrun by eauto. simpl in Hrun.
    step_call Hrun (issue_api_token kc); [|by injection Hrun].
    destruct (r !! "access_token") as [raw|]; simpl in Hrun; [|by injection Hrun].
    step_call Hrun (new_CERNKeycloakToken raw kc); [|by injection Hrun].
    match type of Hrun with
    | context [new_CERNKeycloakUser ?t ?w] =>
        destruct (new_CERNKeycloakUser t w) as [[user|e] w3]; simpl in Hrun
    end; by injection Hrun.
  - intros Hnone. unfold CERNKeycloakClientSecretAuthentication.authenticate.
    by rewrite Hnone.
Qed.

(** A bearer authenticator never abstains: whatever the instance, the request
    and the collaborators, a pass does not return [None]. *)
Theorem bearer_never_abstains self request st :
  fst (CERNKeycloakBearerAuthentication.authenticate self request st) ≠ Return None.
Proof.
  unfold CERNKeycloakBearerAuthentication.authenticate. unfold_monad.
  destruct (get_access_token (headers request)) as [raw|e]; simpl; [|done].
  destruct (get_kc_by_expected_token self st) as [[[[kc aud] azp]|e] st1]; simpl; [|done].
  destruct (new_CERNKeycloakToken raw kc (world st1)) as [[token|e] w1]; simpl; [|done].
  destruct (validate token aud azp w1) as [[token'|e] w2]; simpl; [|done].
  by destruct (new_CERNKeycloakUser token' w2) as [[user|e] w3].
Qed.

(** An instance whose [expected_bearer_token_type] is unset or is neither
    ["public"] nor ["confidential"] fails every pass before any collaborator
    is called: the pass raises and leaves the state as it was. *)
Theorem bearer_misconfigured_fails_early self request st :
  CERNKeycloakBearerAuthentication.expected_bearer_token_type self ≠ Some (PyStr "public") →
  CERNKeycloakBearerAuthentication.expected_bearer_token_type self ≠ Some (PyStr "confidential") →
  ∃ e, CERNKeycloakBearerAuthentication.authenticate self request st = (Raise e, st).
Proof.
  intros Hpub Hconf. unfold_authenticate. unfold_monad.
  destruct (get_access_token (headers request)) as [raw|e]; simpl; [|by eexists].
  destruct (CERNKeycloakBearerAuthentication.expected_bearer_token_type self) as [t|];
    simpl; [|by eexists].
  rewrite !decide_False by congruence. by eexists.
Qed.

(** A bearer pass returns a user exactly when the header yields a token
    string, the instance names a variant, and the token constructor,
    [validate] with the variant's expected sets and the user constructor
    return normally one after the other, each in the world the previous one
    left; the returned token is the one [validate] left behind. *)
Theorem bearer_success_iff self request st user token st' :
  CERNKeycloakBearerAuthentication.authenticate self request st
    = (Return (Some (user, token)), st') ↔
  ∃ raw kc valid_aud valid_azp token0 w1 w2 w3,
    get_access_token (headers request) = Return raw ∧
    get_kc_by_expected_token self st = (Return (kc, valid_aud, valid_azp), st) ∧
    new_CERNKeycloakToken raw kc (world st) = (Return token0, w1) ∧
    validate token0 valid_aud valid_azp w1 = (Return token, w2) ∧
    new_CERNKeycloakUser token w2 = (Return user, w3) ∧
    st' = {| globals := globals st; world := w3;
             trace := trace st ++
                      [Call_CERNKeycloakToken raw kc (Return token0);
                       Call_validate token0 valid_aud valid_azp (Return token);
                       Call_CERNKeycloakUser token (Return user)] |}.
Proof.
  unfold CERNKeycloakBearerAuthentication.authenticate. unfold_monad. split.
  - destruct (get_access_token (headers request)) as [raw|e]; simpl; [|discriminate].
    pose proof (get_kc_by_expected_token_state self st) as Hst.
    destruct (get_kc_by_expected_token self st) as [[[[kc aud] azp]|e] st1]; simpl in *;
      [|discriminate]. subst st1.
    destruct (new_CERNKeycloakToken raw kc (world st)) as [[token0|e] w1] eqn:H1; simpl;
      [|discriminate].
    destruct (validate token0 aud azp w1) as [[token'|e] w2] eqn:H2; simpl; [|discriminate].
    destruct (new_CERNKeycloakUser token' w2) as [[user'|e] w3] eqn:H3; simpl; [|discriminate].
    intros [= <- <- <-]. exists raw, kc, aud, azp, token0, w1, w2, w3.
    by rewrite <- !app_assoc.
  - intros (raw & kc & aud & azp & token0 & w1 & w2 & w3 & -> & -> & H1 & H2 & H3 & ->).
    simpl. rewrite H1. simpl. rewrite H2. simpl. rewrite H3. simpl.
    by rewrite <- !app_assoc.
Qed.

(** When the identity provider's answer has no ["access_token"] member, the
    secret pass raises [KeyError] after that one call: no token and no user
    is constructed. *)
Theorem secret_response_without_access_token request st (s : string)
    (kc : CERNKeycloakOIDC) issued_token w1 :
  headers request !! "X-CLIENT-SECRET" = Some (PyStr s) →
  api_clients_kc (globals st) !! s = Some kc →
  issue_api_token kc (world st) = (Return issued_token, w1) →
  issued_token !! "access_token" = None →
  CERNKeycloakClientSecretAuthentication.authenticate request st =
    (Raise (KeyError ["access_token"]),
     {| globals := globals st; world := w1;
        trace := trace st ++ [Call_issue_api_token kc (Return issued_token)] |}).
Proof.
  intros Hs Hreg Hissue Hnone. unfold_authenticate. unfold dict_get. rewrite Hs. simpl.
  unfold_monad. simpl. unfold dict_getitem. rewrite Hreg.
  rewrite bool_decide_eq_true_2 by eauto. simpl.
  rewrite Hissue. simpl. by rewrite Hnone.
Qed.

(** Each authenticator looks at its own header only: two requests that agree
    on [X-CLIENT-SECRET] get the same secret pass, two that agree on
    [Authorization] the same bearer pass, whatever else they carry. *)
Theorem authenticators_read_only_their_header (request1 request2 : Request) st :
  (headers request1 !! "X-CLIENT-SECRET" = headers request2 !! "X-CLIENT-SECRET" →
   CERNKeycloakClientSecretAuthentication.authenticate request1 st =
   CERNKeycloakClientSecretAuthentication.authenticate request2 st) ∧
  (headers request1 !! "Authorization" = headers request2 !! "Authorization" →
   ∀ self,
     CERNKeycloakBearerAuthentication.authenticate self request1 st =
     CERNKeycloakBearerAuthentication.authenticate self request2 st).
Proof.
  split.
  - intros Heq. unfold_authenticate. unfold dict_get. by rewrite Heq.
  - intros Heq self. unfold CERNKeycloakBearerAuthentication.authenticate.
    unfold get_access_token, CERNKeycloakBearerAuthentication.HEADER_KEY, dict_getitem.
    by rewrite Heq.
Qed.

(** A header value that is not a string ([None], a number) is a malformed
    access token: [get_access_token] raises the classified failure
    [bad_access_token]. *)
Theorem get_access_token_non_string (hs : gmap string PyObj) (v : PyObj) :
  hs !! "Authorization" = Some v →
  (∀ s, v ≠ PyStr s) →
  get_access_token hs =
    Raise (AuthenticationFailed ["Malformed access token."; "bad_access_token"]).
Proof.
  intros Hv Hns. unfold get_access_token, CERNKeycloakBearerAuthentication.HEADER_KEY,
    dict_getitem. rewrite Hv. simpl.
  destruct v as [|s|z]; [done| |done]. by destruct (Hns s).
Qed.

End Abstention.

(** ** The token string *)

Lemma split_pieces_free c sep' s :
  Forall (λ piece, ¬ occurs_in (String c sep') piece) (split_pieces c sep' s).
Proof.
  induction s as [s IH] using (induction_ltof1 _ String.length). unfold ltof in IH.
  rewrite split_pieces_eq.
  destruct (str_partition (String c sep') s) as [[before after]|] eqn:Hp.
  2: { constructor; [|constructor]. by apply str_partition_None. }
  apply str_partition_Some in Hp as [Hs Hleft]. constructor.
  - intros (p & q & Hb).
    specialize (Hleft p (q +:+ String c sep' +:+ after)).
    assert (String.length before ≤ String.length p)%nat as Hle.
    { apply Hleft. by rewrite Hs, Hb, !string_app_assoc. }
    rewrite Hb, !string_length_app in Hle. simpl in Hle. lia.
  - apply IH. rewrite Hs, !string_length_app. simpl. lia.
Qed.

Lemma split_pieces_join c sep' s :
  str_join (String c sep') (split_pieces c sep' s) = s.
Proof.
  induction s as [s IH] using (induction_ltof1 _ String.length). unfold ltof in IH.
  rewrite split_pieces_eq.
  destruct (str_partition (String c sep') s) as [[before after]|] eqn:Hp; [|done].
  apply str_partition_Some in Hp as [Hs _].
  assert (String.length after < String.length s)%nat as Hlt
    by (rewrite Hs, !string_length_app; simpl; lia).
  specialize (IH after Hlt).
  pose proof (split_pieces_nonempty c sep' after) as Hne.
  destruct (split_pieces c sep' after) as [|x rest]; [done|].
  change (str_join (String c sep') (before :: x :: rest))
    with (before +:+ String c sep' +:+ str_join (String c sep') (x :: rest)).
  by rewrite IH.
Qed.

Lemma occurs_in_Bearer_space s : occurs_in "Bearer " s → occurs_in " " s.
Proof.
  intros (pre & post & ->). exists (pre +:+ "Bearer"), post.
  by rewrite string_app_assoc.
Qed.

(** The token [get_access_token] returns for a string header value never
    contains ["Bearer "]. *)
Theorem get_access_token_has_no_Bearer (hs : gmap string PyObj) (v tok : string) :
  hs !! "Authorization" = Some (PyStr v) →
  get_access_token hs = Return tok →
  ¬ occurs_in "Bearer " tok.
Proof.
  intros Hv. rewrite (get_access_token_str _ _ Hv). unfold list_last_item.
  destruct (last (split_pieces "B" "earer " v)) as [x|] eqn:Hlast; [|discriminate].
  intros [= ->]. apply last_Some_elem_of in Hlast.
  pose proof (split_pieces_free "B" "earer " v) as Hfree.
  rewrite Forall_forall in Hfree. by apply Hfree.
Qed.

(** A token without a space survives the header: sent as ["Bearer " + token]
    after any prefix, or bare without the scheme, it comes back unchanged. *)
Theorem get_access_token_round_trip (hs : gmap string PyObj) (pre tok : string) :
  ¬ occurs_in " " tok →
  (hs !! "Authorization" = Some (PyStr (pre +:+ "Bearer " +:+ tok)) →
   get_access_token hs = Return tok) ∧
  (hs !! "Authorization" = Some (PyStr tok) → get_access_token hs = Return tok).
Proof.
  intros Hspace.
  assert (¬ occurs_in "Bearer " tok) as Hno by (by intros ?%occurs_in_Bearer_space).
  split; intros Hv; rewrite (get_access_token_str _ _ Hv); unfold list_last_item.
  - by rewrite (split_pieces_last "B" "earer " _ pre tok eq_refl eq_refl Hno).
  - by rewrite (split_pieces_no_occurrence _ _ _ Hno).
Qed.

(** * Properties of the settings module *)

Lemma strip_prefix_startswith s p : str_startswith s p = true ↔ ∃ rest, s = p +:+ rest.
Proof.
  unfold str_startswith. destruct (strip_prefix p s) as [rest|] eqn:Hp.
  - apply strip_prefix_app in Hp. split; [by exists rest|done].
  - rewrite strip_prefix_None in Hp. split; [done|]. intros [rest ->]. by destruct (Hp rest).
Qed.

Lemma str_split_space v :
  ∃ pieces, str_split v " " = Return pieces ∧ pieces ≠ [] ∧
            str_join " " pieces = v ∧
            Forall (λ piece, ¬ occurs_in " " piece) pieces ∧
            (v = EmptyString → pieces = [EmptyString]).
Proof.
  exists (split_pieces " " EmptyString v). split; [done|].
  split; [apply split_pieces_nonempty|].
  split; [apply split_pieces_join|].
  split; [apply split_pieces_free|].
  by intros ->.
Qed.

(** The three space-separated lists of the settings are never empty, hold no
    entry with a space in it, and give the configured text back when joined
    with spaces; a variable that is unset or empty gives the one-element
    list of the empty string. *)
Theorem host_lists_from_split (env : gmap string string) :
  let spec (name : string) (setting : result (list string)) :=
    ∃ entries,
      setting = Return entries ∧ entries ≠ [] ∧
      str_join " " entries = settings_py.config_default env name EmptyString ∧
      Forall (λ entry, ¬ occurs_in " " entry) entries ∧
      (env !! name = None ∨ env !! name = Some EmptyString → entries = [EmptyString]) in
  spec "DJANGO_ALLOWED_HOSTS" (settings_py.ALLOWED_HOSTS env) ∧
  spec "DJANGO_CSRF_TRUSTED_ORIGINS" (settings_py.CSRF_TRUSTED_ORIGINS env) ∧
  spec "DJANGO_CORS_ALLOWED_ORIGINS" (settings_py.CORS_ALLOWED_ORIGINS env).
Proof.
  assert (∀ name, ∃ entries,
            str_split (settings_py.config_default env name EmptyString) " " = Return entries ∧
            entries ≠ [] ∧
            str_join " " entries = settings_py.config_default env name EmptyString ∧
            Forall (λ entry, ¬ occurs_in " " entry) entries ∧
            (env !! name = None ∨ env !! name = Some EmptyString → entries = [EmptyString]))
    as Hall.
  { intros name.
    destruct (str_split_space (settings_py.config_default env name EmptyString))
      as (pieces & Hsplit & Hne & Hjoin & Hfree & Hempty).
    exists pieces. repeat (split; [done|]).
    intros Hunset. apply Hempty. unfold settings_py.config_default.
    by destruct Hunset as [-> | ->]. }
  intros spec. repeat split; apply Hall.
Qed.

Lemma csp_host_no_dot host : str_startswith (settings_py.csp_host host) "." = false.
Proof.
  unfold settings_py.csp_host. by destruct (str_startswith host ".") eqn:Hdot.
Qed.

(** No source of the three host-derived Content-Security-Policy lists starts
    with a dot, whatever the allowed hosts are, and the rewriting of a host
    is idempotent. *)
Theorem csp_sources_never_start_with_dot (allowed_hosts : list string) :
  Forall (λ source, str_startswith source "." = false)
    (settings_py.CSP_SCRIPT_SRC allowed_hosts) ∧
  Forall (λ source, str_startswith source "." = false)
    (settings_py.CSP_CONNECT_SRC allowed_hosts) ∧
  Forall (λ source, str_startswith source "." = false)
    (settings_py.CSP_FONT_SRC allowed_hosts) ∧
  ∀ host, settings_py.csp_host (settings_py.csp_host host) = settings_py.csp_host host.
Proof.
  assert (Forall (λ source, str_startswith source "." = false)
            (settings_py.csp_host <$> allowed_hosts)) as Hhosts.
  { apply Forall_fmap, Forall_forall. intros host _. apply csp_host_no_dot. }
  repeat split.
  1-3: apply Forall_app; split; [by repeat constructor|done].
  intros host. unfold settings_py.csp_host at 1. by rewrite csp_host_no_dot.
Qed.

(** Workspace names that do not start with a slash get distinct database
    URLs under one server URI. *)
Theorem os_path_join_relative_inj (uri name1 name2 : string) :
  str_startswith name1 "/" = false →
  str_startswith name2 "/" = false →
  name1 ≠ name2 →
  os_path_join uri name1 ≠ os_path_join uri name2.
Proof.
  unfold os_path_join. intros -> -> Hne.
  destruct (_ || _); intros Heq; repeat apply (inj (String.app _)) in Heq; done.
Qed.

Section DatabaseSection.
Variable json_loads : string → result (gmap string string).
Variable Database : Type.
Variable dj_database_url_config : string → result Database.
Variable dict_keys : gmap string string → list string.

Abbreviation database_settings :=
  (settings_py.database_settings json_loads Database dj_database_url_config dict_keys).
Abbreviation build_databases :=
  (settings_py.build_databases Database dj_database_url_config).

Lemma build_databases_Return uri names acc dbs :
  build_databases uri names acc = Return dbs →
  (∀ name, name ∈ names → ∃ db, dj_database_url_config (os_path_join uri name) = Return db) ∧
  ∀ name, dbs !! name =
            if decide (name ∈ names)
            then returned (dj_database_url_config (os_path_join uri name))
            else acc !! name.
Proof.
  revert acc. induction names as [|n names IH]; intros acc; simpl.
  - intros [= <-]. split; [by intros ? ?%elem_of_nil|].
    done.
  - unfold mbind, result_mbind, result_bind.
    destruct (dj_database_url_config (os_path_join uri n)) as [db|e] eqn:Hn; [|discriminate].
    intros [Hall Hlook]%IH. split.
    + intros name [->|Hin]%elem_of_cons; [by exists db|by apply Hall].
    + intros name. rewrite Hlook. destruct (decide (name = n)) as [->|Hne].
      * destruct (decide (n ∈ n :: names)) as [_|Hnin];
          [|by destruct Hnin; apply list_elem_of_here].
        case_decide; [done|]. by rewrite lookup_insert_eq, Hn.
      * rewrite lookup_insert_ne by done.
        destruct (decide (name ∈ names)) as [Hin|Hnin];
          destruct (decide (name ∈ n :: names)) as [Hin'|Hnin']; try done.
        -- destruct Hnin'. by apply list_elem_of_further.
        -- by apply elem_of_cons in Hin' as [?|?].
Qed.

Lemma build_databases_total uri names acc :
  (∀ name, name ∈ names → ∃ db, dj_database_url_config (os_path_join uri name) = Return db) →
  ∃ dbs, build_databases uri names acc = Return dbs.
Proof.
  revert acc. induction names as [|n names IH]; intros acc Hall; simpl; [by eexists|].
  destruct (Hall n) as [db Hn]; [apply list_elem_of_here|].
  unfold mbind, result_mbind, result_bind. rewrite Hn.
  apply IH. intros name Hin. apply Hall. by apply list_elem_of_further.
Qed.

Lemma build_databases_Raise uri l1 name l2 acc e :
  (∀ n, n ∈ l1 → ∃ db, dj_database_url_config (os_path_join uri n) = Return db) →
  dj_database_url_config (os_path_join uri name) = Raise e →
  build_databases uri (l1 ++ name :: l2) acc = Raise e.
Proof.
  revert acc. induction l1 as [|n l1 IH]; intros acc Hall Hname; simpl;
    unfold mbind, result_mbind, result_bind.
  - by rewrite Hname.
  - destruct (Hall n) as [db Hn]; [apply list_elem_of_here|]. rewrite Hn.
    apply IH; [|done]. intros m Hin. apply Hall. by apply list_elem_of_further.
Qed.

(** When the database section loads (and [keys()] lists the keys of
    [WORKSPACES]), the workspaces are not empty, the server URI and a
    non-empty default workspace were configured, the default workspace is one
    of the workspaces, [dj_database_url.config] returned normally for the
    server URI joined with every workspace name, and [DATABASES] holds what
    it returned, one entry per workspace, plus ["default"], which is the
    default workspace's entry (also when a workspace is itself called
    ["default"]). *)
Theorem database_settings_success (env : gmap string string) d :
  list_to_set (dict_keys (settings_py.WORKSPACES d)) =@{gset string}
    dom (settings_py.WORKSPACES d) →
  database_settings env = Return d →
  ∃ w uri,
    json_loads (settings_py.config_default env "DJANGO_WORKSPACES" "{}")
      = Return (settings_py.WORKSPACES d) ∧
    settings_py.WORKSPACES d ≠ ∅ ∧
    env !! "DJANGO_DATABASE_URI" = Some uri ∧ settings_py.DB_SERVER_URI d = uri ∧
    env !! "DJANGO_DEFAULT_WORKSPACE" = Some w ∧ w ≠ EmptyString ∧
    settings_py.DEFAULT_WORKSPACE d = PyStr w ∧
    is_Some (settings_py.WORKSPACES d !! w) ∧
    (∀ name, is_Some (settings_py.WORKSPACES d !! name) →
             ∃ db, dj_database_url_config (os_path_join uri name) = Return db) ∧
    ∀ name,
      settings_py.DATABASES d !! name =
        if decide (name = "default")
        then returned (dj_database_url_config (os_path_join uri w))
        else settings_py.WORKSPACES d !! name ≫=
               λ _, returned (dj_database_url_config (os_path_join uri name)).
Proof.
  intros Hkeys.
  unfold settings_py.database_settings, mbind, result_mbind, result_bind,
    mret, result_ret.
  destruct (json_loads _) as [ws|e]; [|discriminate].
  case_bool_decide as Hsize; [discriminate|].
  unfold settings_py.config, settings_py.config_default_None.
  destruct (env !! "DJANGO_DATABASE_URI") as [uri|]; [|discriminate].
  destruct (env !! "DJANGO_DEFAULT_WORKSPACE") as [w|]; simpl; [|discriminate].
  case_bool_decide as Hw; simpl; [discriminate|].
  destruct (build_databases uri (dict_keys ws) ∅) as [dbs|e] eqn:Hbuild; [|discriminate].
  apply build_databases_Return in Hbuild as [Hall Hlook].
  unfold dict_getitem.
  destruct (dbs !! w) as [db|] eqn:Hdb; simpl; [|discriminate].
  intros [= <-]. simpl in *.
  assert (∀ name, name ∈ dict_keys ws ↔ is_Some (ws !! name)) as Hin.
  { intros name. by rewrite <- elem_of_dom, <- Hkeys, elem_of_list_to_set. }
  assert (w ∈ dict_keys ws) as Hwin.
  { rewrite Hlook in Hdb. case_decide; [done|]. by rewrite lookup_empty in Hdb. }
  exists w, uri.
  split; [done|]. split; [intros ->; apply Hsize, map_size_empty|].
  do 5 (split; [done|]). split; [by apply Hin|].
  split; [intros name ?%Hin; by apply Hall|].
  intros name. case_decide as Hname.
  - subst name. rewrite lookup_insert_eq. rewrite Hlook in Hdb.
    by rewrite decide_True in Hdb by done.
  - rewrite lookup_insert_ne by done. rewrite Hlook.
    destruct (ws !! name) as [x|] eqn:Hws; simpl.
    + by rewrite decide_True by (apply Hin; eauto).
    + rewrite decide_False; [by rewrite lookup_empty|].
      intros [? ?]%Hin. congruence.
Qed.

(** How the database section fails, in the order the module checks: no
    workspace is an [Exception]; otherwise a missing server URI is an
    [UndefinedValueError]; otherwise an unset or empty default workspace is a
    [TypeError], since the fallback subscripts a keys view; otherwise the
    first workspace, in the order of [keys()], for which
    [dj_database_url.config] raises ends the load with that exception;
    otherwise a default workspace that is no workspace is a [KeyError]. *)
Theorem database_settings_failures (env : gmap string string) (ws : gmap string string) :
  json_loads (settings_py.config_default env "DJANGO_WORKSPACES" "{}") = Return ws →
  list_to_set (dict_keys ws) =@{gset string} dom ws →
  (ws = ∅ →
   database_settings env =
     Raise (settings_py.Exception ["Workspaces are empty, cannot start server."])) ∧
  (ws ≠ ∅ → env !! "DJANGO_DATABASE_URI" = None →
   ∃ e, database_settings env = Raise e ∧ exn_class e = "UndefinedValueError") ∧
  (ws ≠ ∅ → is_Some (env !! "DJANGO_DATABASE_URI") →
   env !! "DJANGO_DEFAULT_WORKSPACE" = None ∨
   env !! "DJANGO_DEFAULT_WORKSPACE" = Some EmptyString →
   database_settings env =
     Raise (settings_py.TypeError ["'dict_keys' object is not subscriptable"])) ∧
  (ws ≠ ∅ →
   ∀ uri w, env !! "DJANGO_DATABASE_URI" = Some uri →
     env !! "DJANGO_DEFAULT_WORKSPACE" = Some w → w ≠ EmptyString →
     ∀ (l1 : list string) name l2 e,
       dict_keys ws = (l1 ++ name :: l2)%list →
       (∀ n, n ∈ l1 → ∃ db, dj_database_url_config (os_path_join uri n) = Return db) →
       dj_database_url_config (os_path_join uri name) = Raise e →
       database_settings env = Raise e) ∧
  (ws ≠ ∅ →
   ∀ uri w, env !! "DJANGO_DATABASE_URI" = Some uri →
     env !! "DJANGO_DEFAULT_WORKSPACE" = Some w → w ≠ EmptyString →
     (∀ name, is_Some (ws !! name) →
              ∃ db, dj_database_url_config (os_path_join uri name) = Return db) →
     ws !! w = None →
     database_settings env = Raise (KeyError [w])).
Proof.
  intros Hws Hkeys.
  assert (∀ name, name ∈ dict_keys ws ↔ is_Some (ws !! name)) as Hin.
  { intros name. by rewrite <- elem_of_dom, <- Hkeys, elem_of_list_to_set. }
  unfold settings_py.database_settings, mbind, result_mbind, result_bind,
    mret, result_ret.
  rewrite Hws. unfold settings_py.config, settings_py.config_default_None.
  split; [|split; [|split; [|split]]].
  - intros ->. by rewrite bool_decide_eq_true_2.
  - intros Hne Huri. rewrite bool_decide_eq_false_2 by (by intros ?%map_size_empty_iff).
    rewrite Huri. by eexists.
  - intros Hne [uri Huri] Hdef.
    rewrite bool_decide_eq_false_2 by (by intros ?%map_size_empty_iff).
    rewrite Huri. by destruct Hdef as [-> | ->].
  - intros Hne uri w Huri Hdef Hw l1 name l2 e Hsplit Hbefore Hname.
    rewrite bool_decide_eq_false_2 by (by intros ?%map_size_empty_iff).
    rewrite Huri, Hdef. simpl. rewrite bool_decide_eq_false_2 by done. simpl.
    by rewrite Hsplit, (build_databases_Raise uri l1 name l2 ∅ e Hbefore Hname).
  - intros Hne uri w Huri Hdef Hw Hall Hnone.
    rewrite bool_decide_eq_false_2 by (by intros ?%map_size_empty_iff).
    rewrite Huri, Hdef. simpl. rewrite bool_decide_eq_false_2 by done. simpl.
    destruct (build_databases_total uri (dict_keys ws) ∅) as [dbs Hbuild].
    { intros name ?%Hin. by apply Hall. }
    rewrite Hbuild. apply build_databases_Return in Hbuild as [_ Hlook].
    unfold dict_getitem. rewrite Hlook, decide_False, lookup_empty; [done|].
    intros [? ?]%Hin. congruence.
Qed.

End DatabaseSection.

(** * The registry and the settings it is built from *)

(** The registry has an entry for exactly the configured machine secrets;
    each registered client carries the secret it is registered under and the
    client id configured for it, and shares server URL and realm with the
    public and the confidential client. *)
Theorem registry_entries_carry_their_secret (cfg : Settings) :
  dom (api_clients_kc (import_module cfg)) = dom (KEYCLOAK_API_CLIENTS cfg) ∧
  ∀ secret kc,
    api_clients_kc (import_module cfg) !! secret = Some kc →
    client_secret_key kc = Some secret ∧
    KEYCLOAK_API_CLIENTS cfg !! secret = Some (client_id kc) ∧
    server_url kc = server_url (public_kc (import_module cfg)) ∧
    server_url kc = server_url (confidential_kc (import_module cfg)) ∧
    realm_name kc = realm_name (public_kc (import_module cfg)) ∧
    realm_name kc = realm_name (confidential_kc (import_module cfg)).
Proof.
  split.
  - apply set_eq. intros secret. rewrite !elem_of_dom. simpl. rewrite map_lookup_imap.
    destruct (KEYCLOAK_API_CLIENTS cfg !! secret); simpl; split; intros [? ?]; by eauto.
  - intros secret kc. simpl. rewrite map_lookup_imap.
    destruct (KEYCLOAK_API_CLIENTS cfg !! secret) as [cid|]; simpl; [|discriminate].
    by intros [= <-].
Qed.

Section ConfiguredProcess.
Context {C : Collaborators}.

Lemma secret_first_call (request : Request) (st : State) (s : string) (kc : CERNKeycloakOIDC) :
  headers request !! "X-CLIENT-SECRET" = Some (PyStr s) →
  api_clients_kc (globals st) !! s = Some kc →
  head (new_events st (snd (CERNKeycloakClientSecretAuthentication.authenticate request st)))
    = Some (Call_issue_api_token kc (fst (issue_api_token kc (world st)))).
Proof.
  intros Hs Hreg. unfold_authenticate. unfold dict_get. rewrite Hs. simpl.
  unfold_monad. simpl. unfold dict_getitem. rewrite Hreg.
  rewrite bool_decide_eq_true_2 by eauto. simpl.
  destruct (issue_api_token kc (world st)) as [[issued|e] w1]; simpl; [|by norm_events].
  destruct (issued !! "access_token") as [raw|]; simpl; [|by norm_events].
  destruct (new_CERNKeycloakToken raw kc w1) as [[token|e] w2]; simpl; [|by norm_events].
  match goal with
  | |- context [new_CERNKeycloakUser ?t ?w] =>
      destruct (new_CERNKeycloakUser t w) as [[user|e] w3]; simpl
  end; by norm_events.
Qed.

Lemma secret_unregistered_run (request : Request) (st : State) (v : PyObj) :
  headers request !! "X-CLIENT-SECRET" = Some v →
  v ≠ PyNone →
  dict_contains (api_clients_kc (globals st)) v = false →
  ∃ e, CERNKeycloakClientSecretAuthentication.authenticate request st = (Raise e, st) ∧
       exn_class e = "AuthenticationFailed".
Proof.
  intros Hv Hnone Hreg. unfold_authenticate. unfold dict_get. rewrite Hv. simpl.
  destruct v as [|s|z]; [done|..]; unfold_monad; simpl in *; rewrite ?Hreg; simpl;
    by eexists.
Qed.

(** In a process started from the settings [cfg], a request carrying a
    configured machine secret makes the secret authenticator ask the identity
    provider for a token as the client id configured for that secret, with
    that secret, at the configured server and realm. *)
Theorem secret_pass_uses_configured_client (cfg : Settings) (w : World)
    (request : Request) (secret cid : string) :
  KEYCLOAK_API_CLIENTS cfg !! secret = Some cid →
  headers request !! "X-CLIENT-SECRET" = Some (PyStr secret) →
  let kc := {| server_url := KEYCLOAK_SERVER_URL cfg; client_id := cid;
               client_secret_key := Some secret; realm_name := KEYCLOAK_REALM cfg |} in
  head (new_events (startup cfg w)
          (snd (CERNKeycloakClientSecretAuthentication.authenticate request (startup cfg w))))
    = Some (Call_issue_api_token kc (fst (issue_api_token kc w))).
Proof.
  intros Hcfg Hs kc. apply (secret_first_call request (startup cfg w) secret kc Hs).
  simpl. by rewrite map_lookup_imap, Hcfg.
Qed.

(** With [DJANGO_KEYCLOAK_API_CLIENTS] unset the registry is empty: every
    request that carries an [X-CLIENT-SECRET] value is refused with
    [AuthenticationFailed], and no collaborator is called. *)
Theorem no_api_clients_configured (json_loads : string → result (gmap string string))
    (env : gmap string string) (cfg : Settings) :
  json_loads "{}" = Return ∅ →
  env !! "DJANGO_KEYCLOAK_API_CLIENTS" = None →
  settings_py.keycloak_settings json_loads env = Return cfg →
  ∀ (w : World) (request : Request) (v : PyObj),
    headers request !! "X-CLIENT-SECRET" = Some v → v ≠ PyNone →
    ∃ e,
      CERNKeycloakClientSecretAuthentication.authenticate request (startup cfg w)
        = (Raise e, startup cfg w) ∧
      exn_class e = "AuthenticationFailed".
Proof.
  intros Hjson Hunset Hload w request v Hv Hnone.
  assert (KEYCLOAK_API_CLIENTS cfg = ∅) as Hempty.
  { revert Hload. unfold settings_py.keycloak_settings, mbind, result_mbind, result_bind,
      mret, result_ret, settings_py.config_default.
    rewrite Hunset. simpl. rewrite Hjson.
    repeat (destruct (settings_py.config env _); [|discriminate]).
    by intros [= <-]. }
  apply (secret_unregistered_run request (startup cfg w) v Hv Hnone).
  destruct v as [|s|z]; [done| |done]. simpl.
  by rewrite map_lookup_imap, Hempty, lookup_empty.
Qed.

End ConfiguredProcess.

(** ** The further properties on concrete inputs *)

Lemma bearer_misconfigured_fails_early_witness :
  ∃ e,
    @CERNKeycloakBearerAuthentication.authenticate Demo.collaborators
      {| CERNKeycloakBearerAuthentication.expected_bearer_token_type := None |}
      (Demo.request_with "Authorization" "Bearer tok-public") Demo.st0
    = (Raise e, Demo.st0).
Proof.
  apply (@bearer_misconfigured_fails_early Demo.collaborators); discriminate.
Defined.

Lemma secret_response_without_access_token_witness :
  @CERNKeycloakClientSecretAuthentication.authenticate DemoSilent.collaborators
    (Demo.request_with "X-CLIENT-SECRET" "S2") DemoSilent.st0
  = (Raise (KeyError ["access_token"]),
     @Build_State DemoSilent.collaborators (globals DemoSilent.st0) 1%nat
       (trace DemoSilent.st0 ++ [Call_issue_api_token Demo.robot_kc (Return ∅)])).
Proof.
  apply (@secret_response_without_access_token DemoSilent.collaborators
           (Demo.request_with "X-CLIENT-SECRET" "S2") DemoSilent.st0 "S2" Demo.robot_kc ∅ 1%nat);
    reflexivity.
Defined.

Lemma authenticators_read_only_their_header_witness :
  let request1 := Demo.request_with "X-CLIENT-SECRET" "S2" in
  let request2 :=
    {| headers := {[ "X-CLIENT-SECRET" := PyStr "S2"; "Accept" := PyStr "text/html" ]} |} in
  @CERNKeycloakClientSecretAuthentication.authenticate Demo.collaborators request1 Demo.st0 =
  @CERNKeycloakClientSecretAuthentication.authenticate Demo.collaborators request2 Demo.st0 ∧
  ∀ self,
    @CERNKeycloakBearerAuthentication.authenticate Demo.collaborators self request1 Demo.st0 =
    @CERNKeycloakBearerAuthentication.authenticate Demo.collaborators self request2 Demo.st0.
Proof.
  intros request1 request2.
  destruct (@authenticators_read_only_their_header Demo.collaborators
              request1 request2 Demo.st0) as [Hsecret Hbearer].
  split; [apply Hsecret; reflexivity | apply Hbearer; reflexivity].
Defined.

Lemma get_access_token_non_string_witness :
  get_access_token {[ "Authorization" := PyNone ]} =
    Raise (AuthenticationFailed ["Malformed access token."; "bad_access_token"]).
Proof.
  apply (get_access_token_non_string _ PyNone); [reflexivity | discriminate].
Defined.

Lemma get_access_token_has_no_Bearer_witness :
  ¬ occurs_in "Bearer " "b.c".
Proof.
  apply (get_access_token_has_no_Bearer
           {[ "Authorization" := PyStr "Bearer a.Bearer b.c" ]} "Bearer a.Bearer b.c" "b.c");
    reflexivity.
Defined.

Lemma get_access_token_round_trip_witness :
  get_access_token {[ "Authorization" := PyStr "Bearer eyJhbGciOi.eyJzdWIi.c2ln" ]}
    = Return "eyJhbGciOi.eyJzdWIi.c2ln".
Proof.
  destruct (get_access_token_round_trip
              {[ "Authorization" := PyStr "Bearer eyJhbGciOi.eyJzdWIi.c2ln" ]}
              EmptyString "eyJhbGciOi.eyJzdWIi.c2ln") as [Hprefixed _].
  - apply str_partition_None. reflexivity.
  - apply Hprefixed. reflexivity.
Defined.

Lemma os_path_join_relative_inj_witness :
  os_path_join "postgres://db.cern.ch:5432" "csc" ≠
  os_path_join "postgres://db.cern.ch:5432" "jetmet".
Proof.
  apply os_path_join_relative_inj; [reflexivity | reflexivity | discriminate].
Defined.

Lemma database_settings_success_witness :
  ∃ d,
    settings_py.database_settings DemoSettings.json_loads string
      DemoSettings.dj_database_url_config DemoSettings.dict_keys DemoSettings.env
      = Return d ∧
    settings_py.DATABASES d !! "jetmet" = Some "postgres://db.cern.ch:5432/jetmet" ∧
    ∃ w uri,
      DemoSettings.json_loads
        (settings_py.config_default DemoSettings.env "DJANGO_WORKSPACES" "{}")
        = Return (settings_py.WORKSPACES d) ∧
      settings_py.WORKSPACES d ≠ ∅ ∧
      DemoSettings.env !! "DJANGO_DATABASE_URI" = Some uri ∧
      settings_py.DB_SERVER_URI d = uri ∧
      DemoSettings.env !! "DJANGO_DEFAULT_WORKSPACE" = Some w ∧ w ≠ EmptyString ∧
      settings_py.DEFAULT_WORKSPACE d = PyStr w ∧
      is_Some (settings_py.WORKSPACES d !! w) ∧
      (∀ name, is_Some (settings_py.WORKSPACES d !! name) →
               ∃ db, DemoSettings.dj_database_url_config (os_path_join uri name) = Return db) ∧
      ∀ name,
        settings_py.DATABASES d !! name =
          if decide (name = "default")
          then returned (DemoSettings.dj_database_url_config (os_path_join uri w))
          else settings_py.WORKSPACES d !! name ≫=
                 λ _, returned (DemoSettings.dj_database_url_config (os_path_join uri name)).
Proof.
  eexists. split; [vm_compute; reflexivity|]. split; [vm_compute; reflexivity|].
  apply (database_settings_success DemoSettings.json_loads string
           DemoSettings.dj_database_url_config DemoSettings.dict_keys DemoSettings.env);
    vm_compute; reflexivity.
Defined.

Lemma database_settings_failures_witness :
  let env := delete "DJANGO_DEFAULT_WORKSPACE" DemoSettings.env in
  let bad_env := <[ "DJANGO_DATABASE_URI" := "mysql://db.cern.ch" ]> DemoSettings.env in
  settings_py.database_settings DemoSettings.json_loads string
    DemoSettings.dj_database_url_config DemoSettings.dict_keys env
  = Raise (settings_py.TypeError ["'dict_keys' object is not subscriptable"]) ∧
  ∃ url,
    settings_py.database_settings DemoSettings.json_loads string
      DemoSettings.dj_database_url_config DemoSettings.dict_keys bad_env
    = Raise (Exn "UnknownSchemeError" [url]).
Proof.
  intros env bad_env. split.
  - destruct (database_settings_failures DemoSettings.json_loads string
                DemoSettings.dj_database_url_config DemoSettings.dict_keys env
                {[ "csc" := "cms-csc"; "jetmet" := "cms-jetmet" ]})
      as (_ & _ & Htype & _); [reflexivity | vm_compute; reflexivity |].
    apply Htype.
    + intros Hempty. apply (f_equal (λ m : gmap string string, m !! "csc")) in Hempty.
      vm_compute in Hempty. discriminate.
    + by eexists.
    + left. reflexivity.
  - destruct (database_settings_failures DemoSettings.json_loads string
                DemoSettings.dj_database_url_config DemoSettings.dict_keys bad_env
                {[ "csc" := "cms-csc"; "jetmet" := "cms-jetmet" ]})
      as (_ & _ & _ & Hconfig & _); [reflexivity | vm_compute; reflexivity |].
    eexists.
    eapply (Hconfig ltac:(intros Hempty;
                          apply (f_equal (λ m : gmap string string, m !! "csc")) in Hempty;
                          vm_compute in Hempty; discriminate)
              "mysql://db.cern.ch" "csc" eq_refl eq_refl ltac:(discriminate) []).
    + vm_compute. reflexivity.
    + by intros n ?%elem_of_nil.
    + vm_compute. reflexivity.
Defined.

Lemma registry_entries_carry_their_secret_witness :
  client_secret_key Demo.robot_kc = Some "S2" ∧
  KEYCLOAK_API_CLIENTS Demo.cfg !! "S2" = Some (client_id Demo.robot_kc) ∧
  server_url Demo.robot_kc = server_url (public_kc (import_module Demo.cfg)) ∧
  server_url Demo.robot_kc = server_url (confidential_kc (import_module Demo.cfg)) ∧
  realm_name Demo.robot_kc = realm_name (public_kc (import_module Demo.cfg)) ∧
  realm_name Demo.robot_kc = realm_name (confidential_kc (import_module Demo.cfg)).
Proof.
  destruct (registry_entries_carry_their_secret Demo.cfg) as [_ Hentry].
  apply (Hentry "S2" Demo.robot_kc). reflexivity.
Defined.

Lemma secret_pass_uses_configured_client_witness :
  head (new_events Demo.st0 (snd (Demo.secret_pass "S2")))
    = Some (Call_issue_api_token Demo.robot_kc
              (fst (@issue_api_token Demo.collaborators Demo.robot_kc 0%nat))).
Proof.
  apply (@secret_pass_uses_configured_client Demo.collaborators Demo.cfg 0%nat
           (Demo.request_with "X-CLIENT-SECRET" "S2") "S2" "robot"); reflexivity.
Defined.

Lemma no_api_clients_configured_witness :
  ∃ cfg,
    settings_py.keycloak_settings DemoSettings.json_loads DemoSettings.env = Return cfg ∧
    ∃ e,
      @CERNKeycloakClientSecretAuthentication.authenticate Demo.collaborators
        (Demo.request_with "X-CLIENT-SECRET" "S2") (@startup Demo.collaborators cfg 0%nat)
        = (Raise e, @startup Demo.collaborators cfg 0%nat) ∧
      exn_class e = "AuthenticationFailed".
Proof.
  eexists. split; [vm_compute; reflexivity|].
  eapply (@no_api_clients_configured Demo.collaborators DemoSettings.json_loads
            DemoSettings.env); [reflexivity | reflexivity | vm_compute; reflexivity
                               | reflexivity | discriminate].
Defined.
